(** * The AMQP messenger of the IoT device client

    A shallow embedding of [iothub_client/src/iothubtransport_amqp_messenger.c]
    and of the creation and the send-status query of
    [iothub_client/src/iothubtransport_amqp_twin_messenger.c].

    The messenger is a C module that mutates one heap-allocated instance and
    calls into the uAMQP library, the shared C utility library and the message
    queue.  The embedding keeps that shape:

    - the instance is a record with the fields of the C struct;
    - handles and function pointers are integers, [NULL] being [0];
    - [int] results are integers, [RESULT_OK] being [0];
    - every function is a command of a small state monad over a [World]
      made of the instance and the chronological list of the calls that leave
      the module (library calls with an effect, user callbacks);
    - what the outside answers (allocation results, library return codes, the
      verdict of the application, the clock) is an explicit argument of the
      command that asks for it;
    - the message queue, whose code is not part of these sources, is an
      outside of that kind for the messenger; where a property needs its
      behaviour over time, a model of the queue after the specification is
      put next to the messenger. *)

From Stdlib Require Import ZArith List Ascii String Bool Lia Permutation.
Import ListNotations.

Local Open Scope string_scope.
Local Open Scope Z_scope.

(** ** Constants of the translation unit *)

Definition NULL : Z := 0.
Definition RESULT_OK : Z := 0.

(** [__FAILURE__] comes from [azure_c_shared_utility/optimize_size.h]; the
    messenger only relies on it being different from [RESULT_OK]. *)
Definition __FAILURE__ : Z := 1.

Definition INDEFINITE_TIME : Z := -1.

Definition DEFAULT_EVENT_SEND_RETRY_LIMIT : Z := 0.
Definition DEFAULT_MAX_SEND_ERROR_COUNT : Z := 10.
Definition MAX_MESSAGE_SENDER_STATE_CHANGE_TIMEOUT_SECS : Z := 300.
Definition MAX_MESSAGE_RECEIVER_STATE_CHANGE_TIMEOUT_SECS : Z := 300.
Definition MESSAGE_SENDER_MAX_LINK_SIZE : Z := 2 ^ 64 - 1.
Definition MESSAGE_RECEIVER_MAX_LINK_SIZE : Z := 65536.

Definition MESSENGER_OPTION_EVENT_SEND_TIMEOUT_SECS : string :=
  "amqp_event_send_timeout_secs".
Definition MESSENGER_SAVED_MQ_OPTIONS : string := "amqp_message_queue_options".

(** [size_t] counters wrap around; the width is the one of an LP64 target. *)
Definition SIZE_MAX : Z := 2 ^ 64 - 1.
Definition size_t_incr (n : Z) : Z := (n + 1) mod (SIZE_MAX + 1).

Definition is_null (p : Z) : bool := p =? NULL.

(** ** Enumerations *)

Inductive AMQP_MESSENGER_SEND_STATUS : Set :=
| AMQP_MESSENGER_SEND_STATUS_IDLE
| AMQP_MESSENGER_SEND_STATUS_BUSY.

Inductive AMQP_MESSENGER_SEND_RESULT : Set :=
| AMQP_MESSENGER_SEND_RESULT_OK
| AMQP_MESSENGER_SEND_RESULT_ERROR_CANNOT_PARSE
| AMQP_MESSENGER_SEND_RESULT_ERROR_FAIL_SENDING
| AMQP_MESSENGER_SEND_RESULT_ERROR_TIMEOUT
| AMQP_MESSENGER_SEND_RESULT_MESSENGER_DESTROYED.

Inductive AMQP_MESSENGER_STATE : Set :=
| AMQP_MESSENGER_STATE_STARTING
| AMQP_MESSENGER_STATE_STARTED
| AMQP_MESSENGER_STATE_STOPPING
| AMQP_MESSENGER_STATE_STOPPED
| AMQP_MESSENGER_STATE_ERROR.

Definition AMQP_MESSENGER_STATE_eqb (a b : AMQP_MESSENGER_STATE) : bool :=
  match a, b with
  | AMQP_MESSENGER_STATE_STARTING, AMQP_MESSENGER_STATE_STARTING
  | AMQP_MESSENGER_STATE_STARTED, AMQP_MESSENGER_STATE_STARTED
  | AMQP_MESSENGER_STATE_STOPPING, AMQP_MESSENGER_STATE_STOPPING
  | AMQP_MESSENGER_STATE_STOPPED, AMQP_MESSENGER_STATE_STOPPED
  | AMQP_MESSENGER_STATE_ERROR, AMQP_MESSENGER_STATE_ERROR => true
  | _, _ => false
  end.

(** The application verdict is a C enumeration that the disposition code
    compares against its four enumerators and then falls through, so it is
    kept as the integer it is; the enumerators are numbered in the order of
    [AMQP_MESSENGER_DISPOSITION_RESULT_STRINGS]. *)
Definition AMQP_MESSENGER_DISPOSITION_RESULT : Set := Z.
Definition AMQP_MESSENGER_DISPOSITION_RESULT_NONE : Z := 0.
Definition AMQP_MESSENGER_DISPOSITION_RESULT_ACCEPTED : Z := 1.
Definition AMQP_MESSENGER_DISPOSITION_RESULT_REJECTED : Z := 2.
Definition AMQP_MESSENGER_DISPOSITION_RESULT_RELEASED : Z := 3.

(** States reported by uAMQP for a message sender and a message receiver
    ([azure_uamqp_c/message_sender.h], [azure_uamqp_c/message_receiver.h]). *)
Inductive MESSAGE_SENDER_STATE : Set :=
| MESSAGE_SENDER_STATE_IDLE
| MESSAGE_SENDER_STATE_OPENING
| MESSAGE_SENDER_STATE_OPEN
| MESSAGE_SENDER_STATE_CLOSING
| MESSAGE_SENDER_STATE_ERROR.

Inductive MESSAGE_RECEIVER_STATE : Set :=
| MESSAGE_RECEIVER_STATE_IDLE
| MESSAGE_RECEIVER_STATE_OPENING
| MESSAGE_RECEIVER_STATE_OPEN
| MESSAGE_RECEIVER_STATE_CLOSING
| MESSAGE_RECEIVER_STATE_ERROR.

Inductive MESSAGE_SEND_RESULT : Set :=
| MESSAGE_SEND_OK
| MESSAGE_SEND_ERROR.

(** Results with which the message queue completes an item.  The messenger
    names four of them; any other value of the C enumeration takes the last
    branch of every comparison chain and is kept as [MESSAGE_QUEUE_UNLISTED]. *)
Inductive MESSAGE_QUEUE_RESULT : Set :=
| MESSAGE_QUEUE_SUCCESS
| MESSAGE_QUEUE_ERROR
| MESSAGE_QUEUE_TIMEOUT
| MESSAGE_QUEUE_CANCELLED
| MESSAGE_QUEUE_UNLISTED (raw : Z).

Definition MESSAGE_QUEUE_RESULT_eqb (a b : MESSAGE_QUEUE_RESULT) : bool :=
  match a, b with
  | MESSAGE_QUEUE_SUCCESS, MESSAGE_QUEUE_SUCCESS
  | MESSAGE_QUEUE_ERROR, MESSAGE_QUEUE_ERROR
  | MESSAGE_QUEUE_TIMEOUT, MESSAGE_QUEUE_TIMEOUT
  | MESSAGE_QUEUE_CANCELLED, MESSAGE_QUEUE_CANCELLED => true
  | MESSAGE_QUEUE_UNLISTED x, MESSAGE_QUEUE_UNLISTED y => x =? y
  | _, _ => false
  end.

(** ** Data *)

(** [source] is a [char*]: [None] is the [NULL] pointer. *)
Record AMQP_MESSENGER_MESSAGE_DISPOSITION_INFO : Set := {
  message_id : Z;
  source : option string
}.

(** The fields of [MESSAGE_SEND_CONTEXT] live in a name space of their own,
    as two of them share their names with functions of the module.  The
    back-pointer [messenger] always designates the one instance of the
    [World] and is left out. *)
Module SendContext.
Record MESSAGE_SEND_CONTEXT : Set := {
  message : Z;
  is_destroyed : bool;
  on_send_complete_callback : Z;
  user_context : Z;
  on_process_message_completed_callback : Z
}.
End SendContext.
Definition MESSAGE_SEND_CONTEXT : Set := SendContext.MESSAGE_SEND_CONTEXT.

Record AMQP_MESSENGER_INSTANCE : Set := {
  device_id : string;
  iothub_host_fqdn : string;
  devices_path_format : string;
  send_link_target_suffix : string;
  receive_link_source_suffix : string;
  on_state_changed_callback : Z;
  on_state_changed_context : Z;
  receive_messages : bool;
  on_message_received_callback : Z;
  on_message_received_context : Z;
  send_queue : Z;
  state : AMQP_MESSENGER_STATE;
  session_handle : Z;
  sender_link : Z;
  message_sender : Z;
  message_sender_current_state : MESSAGE_SENDER_STATE;
  message_sender_previous_state : MESSAGE_SENDER_STATE;
  receiver_link : Z;
  message_receiver : Z;
  message_receiver_current_state : MESSAGE_RECEIVER_STATE;
  message_receiver_previous_state : MESSAGE_RECEIVER_STATE;
  send_link_attach_properties : option (list (string * string));
  receive_link_attach_properties : option (list (string * string));
  send_error_count : Z;
  max_send_error_count : Z;
  last_message_sender_state_change_time : Z;
  last_message_receiver_state_change_time : Z
}.

(** Calls that leave the module, in the order they are made. *)
Inductive Event : Set :=
| state_changed_callback (context : Z) (previous_state new_state : AMQP_MESSENGER_STATE)
| send_complete_callback (callback : Z) (result : AMQP_MESSENGER_SEND_RESULT) (context : Z)
| message_received_callback
    (callback : Z) (msg : Z) (info : AMQP_MESSENGER_MESSAGE_DISPOSITION_INFO) (context : Z)
| call_link_create (session : Z) (name : string) (is_sender : bool) (link : Z)
| call_link_destroy (link : Z)
| call_messagesender_create (link sender : Z)
| call_messagesender_open (sender : Z)
| call_messagesender_destroy (sender : Z)
| call_messagesender_send (sender msg : Z)
| call_messagereceiver_create (link receiver : Z)
| call_messagereceiver_open (receiver : Z)
| call_messagereceiver_close (receiver : Z)
| call_messagereceiver_destroy (receiver : Z)
| call_messagereceiver_send_message_disposition
    (receiver : Z) (link_name : string) (delivery : Z) (disposition : Z)
| call_amqpvalue_destroy (value : Z)
| call_message_destroy (msg : Z)
| call_message_queue_add (queue msg : Z) (context : MESSAGE_SEND_CONTEXT)
| call_message_queue_destroy (queue : Z)
| call_message_queue_do_work (queue : Z)
| call_message_queue_move_all_back_to_pending (queue : Z)
| call_message_queue_set_max_message_enqueued_time_secs (queue seconds : Z)
| call_process_message_completed (queue msg : Z) (result : MESSAGE_QUEUE_RESULT).

Record World : Set := {
  instance : AMQP_MESSENGER_INSTANCE;
  trace : list Event
}.

(** ** The command monad *)

Definition Cmd (A : Type) : Type := World -> A * World.

Definition ret {A} (a : A) : Cmd A := fun w => (a, w).
Definition bind {A B} (c : Cmd A) (k : A -> Cmd B) : Cmd B :=
  fun w => let (a, w1) := c w in k a w1.

Declare Scope cmd_scope.
Delimit Scope cmd_scope with cmd.
Notation "x <- c ;; k" := (bind c (fun x => k))
  (at level 61, c at next level, right associativity) : cmd_scope.
Notation "c ;; k" := (bind c (fun _ => k))
  (at level 61, right associativity) : cmd_scope.
Local Open Scope cmd_scope.

Definition skip : Cmd unit := ret tt.
Definition get : Cmd AMQP_MESSENGER_INSTANCE := fun w => (instance w, w).
Definition modify (f : AMQP_MESSENGER_INSTANCE -> AMQP_MESSENGER_INSTANCE) : Cmd unit :=
  fun w => (tt, {| instance := f (instance w); trace := trace w |}).
Definition emit (e : Event) : Cmd unit :=
  fun w => (tt, {| instance := instance w; trace := trace w ++ [e] |}).
Definition when (b : bool) (c : Cmd unit) : Cmd unit := if b then c else skip.

Definition exec {A} (c : Cmd A) (w : World) : World := snd (c w).
Definition eval {A} (c : Cmd A) (w : World) : A := fst (c w).

(** Field assignments [instance->f = v]. *)

Definition set_receive_messages (v : bool) (i : AMQP_MESSENGER_INSTANCE) : AMQP_MESSENGER_INSTANCE :=
  Build_AMQP_MESSENGER_INSTANCE
    (device_id i) (iothub_host_fqdn i) (devices_path_format i) (send_link_target_suffix i)
    (receive_link_source_suffix i) (on_state_changed_callback i) (on_state_changed_context i) v
    (on_message_received_callback i) (on_message_received_context i) (send_queue i) (state i)
    (session_handle i) (sender_link i) (message_sender i) (message_sender_current_state i)
    (message_sender_previous_state i) (receiver_link i) (message_receiver i)
    (message_receiver_current_state i) (message_receiver_previous_state i)
    (send_link_attach_properties i) (receive_link_attach_properties i) (send_error_count i)
    (max_send_error_count i) (last_message_sender_state_change_time i)
    (last_message_receiver_state_change_time i).

Definition set_on_message_received_callback (v : Z) (i : AMQP_MESSENGER_INSTANCE) : AMQP_MESSENGER_INSTANCE :=
  Build_AMQP_MESSENGER_INSTANCE
    (device_id i) (iothub_host_fqdn i) (devices_path_format i) (send_link_target_suffix i)
    (receive_link_source_suffix i) (on_state_changed_callback i) (on_state_changed_context i)
    (receive_messages i) v (on_message_received_context i) (send_queue i) (state i)
    (session_handle i) (sender_link i) (message_sender i) (message_sender_current_state i)
    (message_sender_previous_state i) (receiver_link i) (message_receiver i)
    (message_receiver_current_state i) (message_receiver_previous_state i)
    (send_link_attach_properties i) (receive_link_attach_properties i) (send_error_count i)
    (max_send_error_count i) (last_message_sender_state_change_time i)
    (last_message_receiver_state_change_time i).

Definition set_on_message_received_context (v : Z) (i : AMQP_MESSENGER_INSTANCE) : AMQP_MESSENGER_INSTANCE :=
  Build_AMQP_MESSENGER_INSTANCE
    (device_id i) (iothub_host_fqdn i) (devices_path_format i) (send_link_target_suffix i)
    (receive_link_source_suffix i) (on_state_changed_callback i) (on_state_changed_context i)
    (receive_messages i) (on_message_received_callback i) v (send_queue i) (state i)
    (session_handle i) (sender_link i) (message_sender i) (message_sender_current_state i)
    (message_sender_previous_state i) (receiver_link i) (message_receiver i)
    (message_receiver_current_state i) (message_receiver_previous_state i)
    (send_link_attach_properties i) (receive_link_attach_properties i) (send_error_count i)
    (max_send_error_count i) (last_message_sender_state_change_time i)
    (last_message_receiver_state_change_time i).

Definition set_state (v : AMQP_MESSENGER_STATE) (i : AMQP_MESSENGER_INSTANCE) : AMQP_MESSENGER_INSTANCE :=
  Build_AMQP_MESSENGER_INSTANCE
    (device_id i) (iothub_host_fqdn i) (devices_path_format i) (send_link_target_suffix i)
    (receive_link_source_suffix i) (on_state_changed_callback i) (on_state_changed_context i)
    (receive_messages i) (on_message_received_callback i) (on_message_received_context i)
    (send_queue i) v (session_handle i) (sender_link i) (message_sender i)
    (message_sender_current_state i) (message_sender_previous_state i) (receiver_link i)
    (message_receiver i) (message_receiver_current_state i) (message_receiver_previous_state i)
    (send_link_attach_properties i) (receive_link_attach_properties i) (send_error_count i)
    (max_send_error_count i) (last_message_sender_state_change_time i)
    (last_message_receiver_state_change_time i).

Definition set_session_handle (v : Z) (i : AMQP_MESSENGER_INSTANCE) : AMQP_MESSENGER_INSTANCE :=
  Build_AMQP_MESSENGER_INSTANCE
    (device_id i) (iothub_host_fqdn i) (devices_path_format i) (send_link_target_suffix i)
    (receive_link_source_suffix i) (on_state_changed_callback i) (on_state_changed_context i)
    (receive_messages i) (on_message_received_callback i) (on_message_received_context i)
    (send_queue i) (state i) v (sender_link i) (message_sender i)
    (message_sender_current_state i) (message_sender_previous_state i) (receiver_link i)
    (message_receiver i) (message_receiver_current_state i) (message_receiver_previous_state i)
    (send_link_attach_properties i) (receive_link_attach_properties i) (send_error_count i)
    (max_send_error_count i) (last_message_sender_state_change_time i)
    (last_message_receiver_state_change_time i).

Definition set_sender_link (v : Z) (i : AMQP_MESSENGER_INSTANCE) : AMQP_MESSENGER_INSTANCE :=
  Build_AMQP_MESSENGER_INSTANCE
    (device_id i) (iothub_host_fqdn i) (devices_path_format i) (send_link_target_suffix i)
    (receive_link_source_suffix i) (on_state_changed_callback i) (on_state_changed_context i)
    (receive_messages i) (on_message_received_callback i) (on_message_received_context i)
    (send_queue i) (state i) (session_handle i) v (message_sender i)
    (message_sender_current_state i) (message_sender_previous_state i) (receiver_link i)
    (message_receiver i) (message_receiver_current_state i) (message_receiver_previous_state i)
    (send_link_attach_properties i) (receive_link_attach_properties i) (send_error_count i)
    (max_send_error_count i) (last_message_sender_state_change_time i)
    (last_message_receiver_state_change_time i).

Definition set_message_sender (v : Z) (i : AMQP_MESSENGER_INSTANCE) : AMQP_MESSENGER_INSTANCE :=
  Build_AMQP_MESSENGER_INSTANCE
    (device_id i) (iothub_host_fqdn i) (devices_path_format i) (send_link_target_suffix i)
    (receive_link_source_suffix i) (on_state_changed_callback i) (on_state_changed_context i)
    (receive_messages i) (on_message_received_callback i) (on_message_received_context i)
    (send_queue i) (state i) (session_handle i) (sender_link i) v
    (message_sender_current_state i) (message_sender_previous_state i) (receiver_link i)
    (message_receiver i) (message_receiver_current_state i) (message_receiver_previous_state i)
    (send_link_attach_properties i) (receive_link_attach_properties i) (send_error_count i)
    (max_send_error_count i) (last_message_sender_state_change_time i)
    (last_message_receiver_state_change_time i).

Definition set_message_sender_current_state (v : MESSAGE_SENDER_STATE) (i : AMQP_MESSENGER_INSTANCE) : AMQP_MESSENGER_INSTANCE :=
  Build_AMQP_MESSENGER_INSTANCE
    (device_id i) (iothub_host_fqdn i) (devices_path_format i) (send_link_target_suffix i)
    (receive_link_source_suffix i) (on_state_changed_callback i) (on_state_changed_context i)
    (receive_messages i) (on_message_received_callback i) (on_message_received_context i)
    (send_queue i) (state i) (session_handle i) (sender_link i) (message_sender i) v
    (message_sender_previous_state i) (receiver_link i) (message_receiver i)
    (message_receiver_current_state i) (message_receiver_previous_state i)
    (send_link_attach_properties i) (receive_link_attach_properties i) (send_error_count i)
    (max_send_error_count i) (last_message_sender_state_change_time i)
    (last_message_receiver_state_change_time i).

Definition set_message_sender_previous_state (v : MESSAGE_SENDER_STATE) (i : AMQP_MESSENGER_INSTANCE) : AMQP_MESSENGER_INSTANCE :=
  Build_AMQP_MESSENGER_INSTANCE
    (device_id i) (iothub_host_fqdn i) (devices_path_format i) (send_link_target_suffix i)
    (receive_link_source_suffix i) (on_state_changed_callback i) (on_state_changed_context i)
    (receive_messages i) (on_message_received_callback i) (on_message_received_context i)
    (send_queue i) (state i) (session_handle i) (sender_link i) (message_sender i)
    (message_sender_current_state i) v (receiver_link i) (message_receiver i)
    (message_receiver_current_state i) (message_receiver_previous_state i)
    (send_link_attach_properties i) (receive_link_attach_properties i) (send_error_count i)
    (max_send_error_count i) (last_message_sender_state_change_time i)
    (last_message_receiver_state_change_time i).

Definition set_receiver_link (v : Z) (i : AMQP_MESSENGER_INSTANCE) : AMQP_MESSENGER_INSTANCE :=
  Build_AMQP_MESSENGER_INSTANCE
    (device_id i) (iothub_host_fqdn i) (devices_path_format i) (send_link_target_suffix i)
    (receive_link_source_suffix i) (on_state_changed_callback i) (on_state_changed_context i)
    (receive_messages i) (on_message_received_callback i) (on_message_received_context i)
    (send_queue i) (state i) (session_handle i) (sender_link i) (message_sender i)
    (message_sender_current_state i) (message_sender_previous_state i) v (message_receiver i)
    (message_receiver_current_state i) (message_receiver_previous_state i)
    (send_link_attach_properties i) (receive_link_attach_properties i) (send_error_count i)
    (max_send_error_count i) (last_message_sender_state_change_time i)
    (last_message_receiver_state_change_time i).

Definition set_message_receiver (v : Z) (i : AMQP_MESSENGER_INSTANCE) : AMQP_MESSENGER_INSTANCE :=
  Build_AMQP_MESSENGER_INSTANCE
    (device_id i) (iothub_host_fqdn i) (devices_path_format i) (send_link_target_suffix i)
    (receive_link_source_suffix i) (on_state_changed_callback i) (on_state_changed_context i)
    (receive_messages i) (on_message_received_callback i) (on_message_received_context i)
    (send_queue i) (state i) (session_handle i) (sender_link i) (message_sender i)
    (message_sender_current_state i) (message_sender_previous_state i) (receiver_link i) v
    (message_receiver_current_state i) (message_receiver_previous_state i)
    (send_link_attach_properties i) (receive_link_attach_properties i) (send_error_count i)
    (max_send_error_count i) (last_message_sender_state_change_time i)
    (last_message_receiver_state_change_time i).

Definition set_message_receiver_current_state (v : MESSAGE_RECEIVER_STATE) (i : AMQP_MESSENGER_INSTANCE) : AMQP_MESSENGER_INSTANCE :=
  Build_AMQP_MESSENGER_INSTANCE
    (device_id i) (iothub_host_fqdn i) (devices_path_format i) (send_link_target_suffix i)
    (receive_link_source_suffix i) (on_state_changed_callback i) (on_state_changed_context i)
    (receive_messages i) (on_message_received_callback i) (on_message_received_context i)
    (send_queue i) (state i) (session_handle i) (sender_link i) (message_sender i)
    (message_sender_current_state i) (message_sender_previous_state i) (receiver_link i)
    (message_receiver i) v (message_receiver_previous_state i) (send_link_attach_properties i)
    (receive_link_attach_properties i) (send_error_count i) (max_send_error_count i)
    (last_message_sender_state_change_time i) (last_message_receiver_state_change_time i).

Definition set_message_receiver_previous_state (v : MESSAGE_RECEIVER_STATE) (i : AMQP_MESSENGER_INSTANCE) : AMQP_MESSENGER_INSTANCE :=
  Build_AMQP_MESSENGER_INSTANCE
    (device_id i) (iothub_host_fqdn i) (devices_path_format i) (send_link_target_suffix i)
    (receive_link_source_suffix i) (on_state_changed_callback i) (on_state_changed_context i)
    (receive_messages i) (on_message_received_callback i) (on_message_received_context i)
    (send_queue i) (state i) (session_handle i) (sender_link i) (message_sender i)
    (message_sender_current_state i) (message_sender_previous_state i) (receiver_link i)
    (message_receiver i) (message_receiver_current_state i) v (send_link_attach_properties i)
    (receive_link_attach_properties i) (send_error_count i) (max_send_error_count i)
    (last_message_sender_state_change_time i) (last_message_receiver_state_change_time i).

Definition set_send_error_count (v : Z) (i : AMQP_MESSENGER_INSTANCE) : AMQP_MESSENGER_INSTANCE :=
  Build_AMQP_MESSENGER_INSTANCE
    (device_id i) (iothub_host_fqdn i) (devices_path_format i) (send_link_target_suffix i)
    (receive_link_source_suffix i) (on_state_changed_callback i) (on_state_changed_context i)
    (receive_messages i) (on_message_received_callback i) (on_message_received_context i)
    (send_queue i) (state i) (session_handle i) (sender_link i) (message_sender i)
    (message_sender_current_state i) (message_sender_previous_state i) (receiver_link i)
    (message_receiver i) (message_receiver_current_state i) (message_receiver_previous_state i)
    (send_link_attach_properties i) (receive_link_attach_properties i) v
    (max_send_error_count i) (last_message_sender_state_change_time i)
    (last_message_receiver_state_change_time i).

Definition set_last_message_sender_state_change_time (v : Z) (i : AMQP_MESSENGER_INSTANCE) : AMQP_MESSENGER_INSTANCE :=
  Build_AMQP_MESSENGER_INSTANCE
    (device_id i) (iothub_host_fqdn i) (devices_path_format i) (send_link_target_suffix i)
    (receive_link_source_suffix i) (on_state_changed_callback i) (on_state_changed_context i)
    (receive_messages i) (on_message_received_callback i) (on_message_received_context i)
    (send_queue i) (state i) (session_handle i) (sender_link i) (message_sender i)
    (message_sender_current_state i) (message_sender_previous_state i) (receiver_link i)
    (message_receiver i) (message_receiver_current_state i) (message_receiver_previous_state i)
    (send_link_attach_properties i) (receive_link_attach_properties i) (send_error_count i)
    (max_send_error_count i) v (last_message_receiver_state_change_time i).

Definition set_last_message_receiver_state_change_time (v : Z) (i : AMQP_MESSENGER_INSTANCE) : AMQP_MESSENGER_INSTANCE :=
  Build_AMQP_MESSENGER_INSTANCE
    (device_id i) (iothub_host_fqdn i) (devices_path_format i) (send_link_target_suffix i)
    (receive_link_source_suffix i) (on_state_changed_callback i) (on_state_changed_context i)
    (receive_messages i) (on_message_received_callback i) (on_message_received_context i)
    (send_queue i) (state i) (session_handle i) (sender_link i) (message_sender i)
    (message_sender_current_state i) (message_sender_previous_state i) (receiver_link i)
    (message_receiver i) (message_receiver_current_state i) (message_receiver_previous_state i)
    (send_link_attach_properties i) (receive_link_attach_properties i) (send_error_count i)
    (max_send_error_count i) (last_message_sender_state_change_time i) v.

Definition MESSAGE_SENDER_STATE_eqb (a b : MESSAGE_SENDER_STATE) : bool :=
  match a, b with
  | MESSAGE_SENDER_STATE_IDLE, MESSAGE_SENDER_STATE_IDLE
  | MESSAGE_SENDER_STATE_OPENING, MESSAGE_SENDER_STATE_OPENING
  | MESSAGE_SENDER_STATE_OPEN, MESSAGE_SENDER_STATE_OPEN
  | MESSAGE_SENDER_STATE_CLOSING, MESSAGE_SENDER_STATE_CLOSING
  | MESSAGE_SENDER_STATE_ERROR, MESSAGE_SENDER_STATE_ERROR => true
  | _, _ => false
  end.

Definition MESSAGE_RECEIVER_STATE_eqb (a b : MESSAGE_RECEIVER_STATE) : bool :=
  match a, b with
  | MESSAGE_RECEIVER_STATE_IDLE, MESSAGE_RECEIVER_STATE_IDLE
  | MESSAGE_RECEIVER_STATE_OPENING, MESSAGE_RECEIVER_STATE_OPENING
  | MESSAGE_RECEIVER_STATE_OPEN, MESSAGE_RECEIVER_STATE_OPEN
  | MESSAGE_RECEIVER_STATE_CLOSING, MESSAGE_RECEIVER_STATE_CLOSING
  | MESSAGE_RECEIVER_STATE_ERROR, MESSAGE_RECEIVER_STATE_ERROR => true
  | _, _ => false
  end.

(** ** Link addressing *)

(** [STRING_new] and [STRING_sprintf] may fail; a caller of the helpers below
    says which of the two succeeded. *)
Record STRING_OUTCOME : Set := {
  STRING_new_ok : bool;
  STRING_sprintf_ok : bool
}.

(** [STRING_sprintf] restricted to the [%s] directive, the only one in the
    formats of this module and of its configuration. *)
Fixpoint sprintf_s (format : string) (args : list string) : string :=
  match format with
  | EmptyString => EmptyString
  | String "%"%char (String "s"%char rest) =>
      match args with
      | a :: args' => (a ++ sprintf_s rest args')%string
      | [] => sprintf_s rest []
      end
  | String c rest => String c (sprintf_s rest args)
  end.

Definition LINK_BASE_ADDRESS : string := "amqps://%s/%s".
Definition MESSAGE_SENDER_LINK_NAME_PREFIX : string := "link-snd".
Definition MESSAGE_RECEIVER_LINK_NAME_PREFIX : string := "link-rcv".

Definition STRING_construct_sprintf (o : STRING_OUTCOME) (format : string) (args : list string)
  : option string :=
  if negb (STRING_new_ok o) then None
  else if negb (STRING_sprintf_ok o) then None
  else Some (sprintf_s format args).

Definition create_devices_path (o : STRING_OUTCOME) (devices_path_format iothub_host_fqdn device_id : string)
  : option string :=
  STRING_construct_sprintf o devices_path_format [iothub_host_fqdn; device_id].

Definition create_link_address (o : STRING_OUTCOME) (devices_path address_suffix : string)
  : option string :=
  STRING_construct_sprintf o LINK_BASE_ADDRESS [devices_path; address_suffix].

Definition create_link_source_name (o : STRING_OUTCOME) (link_name : string) : option string :=
  STRING_construct_sprintf o "%s-source" [link_name].

Definition create_link_target_name (o : STRING_OUTCOME) (link_name : string) : option string :=
  STRING_construct_sprintf o "%s-target" [link_name].

(** [create_link_name]: the buffer allocation, then [UniqueId_Generate] (here
    the identifier it wrote, or [None]), then the string construction. *)
Record LINK_NAME_OUTCOME : Set := {
  unique_id_malloc_ok : bool;
  UniqueId_Generate : option string;
  tag_string : STRING_OUTCOME
}.

Definition create_link_name (o : LINK_NAME_OUTCOME) (prefix infix : string) : option string :=
  if negb (unique_id_malloc_ok o) then None
  else
    match UniqueId_Generate o with
    | None => None
    | Some unique_id =>
        STRING_construct_sprintf (tag_string o) "%s-%s-%s" [prefix; infix; unique_id]
    end.

(** ** Messenger state *)

Definition update_messenger_state (new_state : AMQP_MESSENGER_STATE) : Cmd unit :=
  i <- get ;;
  if AMQP_MESSENGER_STATE_eqb new_state (state i) then skip
  else
    modify (set_state new_state) ;;
    when (negb (is_null (on_state_changed_callback i)))
      (emit (state_changed_callback (on_state_changed_context i) (state i) new_state)).

(** ** Link attach properties *)

Record ATTACH_OUTCOME : Set := {
  amqpvalue_create_map_ok : bool;
  Map_GetInternals_ok : bool;
  amqpvalue_create_symbol_ok : string -> bool;
  amqpvalue_create_string_ok : string -> bool;
  amqpvalue_set_map_value : string -> string -> Z;
  link_set_attach_properties : Z
}.

(** The loop body of [add_link_attach_properties] for one key and value. *)
Definition add_one_attach_property (o : ATTACH_OUTCOME) (kv : string * string) : Z :=
  let (key, value) := kv in
  if negb (amqpvalue_create_symbol_ok o key) then __FAILURE__
  else if negb (amqpvalue_create_string_ok o value) then __FAILURE__
  else if negb (amqpvalue_set_map_value o key value =? 0) then __FAILURE__
  else RESULT_OK.

(** [for (i = 0; i < count && result == RESULT_OK; i++)] *)
Fixpoint add_attach_properties_loop (o : ATTACH_OUTCOME) (kvs : list (string * string)) : Z :=
  match kvs with
  | [] => RESULT_OK
  | kv :: rest =>
      let result := add_one_attach_property o kv in
      if result =? RESULT_OK then add_attach_properties_loop o rest else result
  end.

Definition add_link_attach_properties (o : ATTACH_OUTCOME)
  (user_defined_properties : list (string * string)) : Z :=
  if negb (amqpvalue_create_map_ok o) then __FAILURE__
  else if negb (Map_GetInternals_ok o) then __FAILURE__
  else
    let result := add_attach_properties_loop o user_defined_properties in
    if result =? RESULT_OK then
      if negb (link_set_attach_properties o =? 0) then __FAILURE__ else RESULT_OK
    else result.

(** ** Message sender *)

Definition destroy_message_sender : Cmd unit :=
  i <- get ;;
  when (negb (is_null (message_sender i)))
    (emit (call_messagesender_destroy (message_sender i)) ;;
     modify (set_message_sender NULL) ;;
     modify (set_message_sender_current_state MESSAGE_SENDER_STATE_IDLE) ;;
     modify (set_message_sender_previous_state MESSAGE_SENDER_STATE_IDLE) ;;
     modify (set_last_message_sender_state_change_time INDEFINITE_TIME)) ;;
  i <- get ;;
  when (negb (is_null (sender_link i)))
    (emit (call_link_destroy (sender_link i)) ;;
     modify (set_sender_link NULL)).

(** [now] is what [get_time(NULL)] returns when the callback runs. *)
Definition on_message_sender_state_changed_callback
  (context : Z) (new_state previous_state : MESSAGE_SENDER_STATE) (now : Z) : Cmd unit :=
  if is_null context then skip
  else if negb (MESSAGE_SENDER_STATE_eqb new_state previous_state) then
    modify (set_message_sender_current_state new_state) ;;
    modify (set_message_sender_previous_state previous_state) ;;
    modify (set_last_message_sender_state_change_time now)
  else skip.

(** What the libraries answer to the calls of [create_message_sender] and of
    [create_message_receiver], in the order of the calls.  The handles are
    those returned by the creation functions ([NULL] on failure), the integers
    are return codes. *)
Record LINK_OUTCOME : Set := {
  devices_path_string : STRING_OUTCOME;
  link_address_string : STRING_OUTCOME;
  link_name_string : LINK_NAME_OUTCOME;
  endpoint_name_string : STRING_OUTCOME;
  messaging_create_source : Z;
  messaging_create_target : Z;
  link_create : Z;
  link_set_rcv_settle_mode : Z;
  attach_properties : ATTACH_OUTCOME;
  link_set_max_message_size : Z;
  endpoint_create : Z;
  endpoint_open : Z
}.

Definition create_message_sender (o : LINK_OUTCOME) : Cmd Z :=
  i <- get ;;
  match create_devices_path (devices_path_string o)
          (devices_path_format i) (iothub_host_fqdn i) (device_id i) with
  | None => ret __FAILURE__
  | Some devices_path =>
  match create_link_address (link_address_string o) devices_path (send_link_target_suffix i) with
  | None => ret __FAILURE__
  | Some send_link_address =>
  match create_link_name (link_name_string o) MESSAGE_SENDER_LINK_NAME_PREFIX (device_id i) with
  | None => ret __FAILURE__
  | Some link_name =>
  match create_link_source_name (endpoint_name_string o) link_name with
  | None => ret __FAILURE__
  | Some source_name =>
      if is_null (messaging_create_source o) then ret __FAILURE__
      else if is_null (messaging_create_target o) then ret __FAILURE__
      else
        emit (call_link_create (session_handle i) link_name true (link_create o)) ;;
        modify (set_sender_link (link_create o)) ;;
        if is_null (link_create o) then ret __FAILURE__
        else if match send_link_attach_properties i with
                | Some properties =>
                    negb (add_link_attach_properties (attach_properties o) properties =? RESULT_OK)
                | None => false
                end
        then
          emit (call_link_destroy (link_create o)) ;;
          modify (set_sender_link NULL) ;;
          ret __FAILURE__
        else
          emit (call_messagesender_create (link_create o) (endpoint_create o)) ;;
          modify (set_message_sender (endpoint_create o)) ;;
          if is_null (endpoint_create o) then
            emit (call_link_destroy (link_create o)) ;;
            modify (set_sender_link NULL) ;;
            ret __FAILURE__
          else
            emit (call_messagesender_open (endpoint_create o)) ;;
            if negb (endpoint_open o =? RESULT_OK) then
              emit (call_messagesender_destroy (endpoint_create o)) ;;
              modify (set_message_sender NULL) ;;
              emit (call_link_destroy (link_create o)) ;;
              modify (set_sender_link NULL) ;;
              ret __FAILURE__
            else ret RESULT_OK
  end end end end.

(** ** Message receiver *)

Definition destroy_message_receiver : Cmd unit :=
  i <- get ;;
  when (negb (is_null (message_receiver i)))
    (emit (call_messagereceiver_close (message_receiver i)) ;;
     emit (call_messagereceiver_destroy (message_receiver i)) ;;
     modify (set_message_receiver NULL) ;;
     modify (set_message_receiver_current_state MESSAGE_RECEIVER_STATE_IDLE) ;;
     modify (set_message_receiver_previous_state MESSAGE_RECEIVER_STATE_IDLE) ;;
     modify (set_last_message_receiver_state_change_time INDEFINITE_TIME)) ;;
  i <- get ;;
  when (negb (is_null (receiver_link i)))
    (emit (call_link_destroy (receiver_link i)) ;;
     modify (set_receiver_link NULL)).

Definition on_message_receiver_state_changed_callback
  (context : Z) (new_state previous_state : MESSAGE_RECEIVER_STATE) (now : Z) : Cmd unit :=
  if is_null context then skip
  else if negb (MESSAGE_RECEIVER_STATE_eqb new_state previous_state) then
    modify (set_message_receiver_current_state new_state) ;;
    modify (set_message_receiver_previous_state previous_state) ;;
    modify (set_last_message_receiver_state_change_time now)
  else skip.

(** What [create_message_disposition_info] is answered: the allocation, the
    two queries of the message receiver (return code and value written) and
    the string copy. *)
Record DISPOSITION_INFO_OUTCOME : Set := {
  disposition_info_malloc_ok : bool;
  messagereceiver_get_received_message_id : Z * Z;
  messagereceiver_get_link_name : Z * string;
  mallocAndStrcpy_s : Z
}.

Definition create_message_disposition_info (o : DISPOSITION_INFO_OUTCOME)
  : option AMQP_MESSENGER_MESSAGE_DISPOSITION_INFO :=
  if negb (disposition_info_malloc_ok o) then None
  else
    let (id_result, delivery) := messagereceiver_get_received_message_id o in
    if negb (id_result =? RESULT_OK) then None
    else
      let (name_result, link_name) := messagereceiver_get_link_name o in
      if negb (name_result =? RESULT_OK) then None
      else if negb (mallocAndStrcpy_s o =? RESULT_OK) then None
      else Some {| message_id := delivery; source := Some link_name |}.

(** The delivery outcomes built by uAMQP ([azure_uamqp_c/messaging.h]): each
    field is the [AMQP_VALUE] handle the function of that name returns. *)
Class Messaging : Set := {
  messaging_delivery_accepted : Z;
  messaging_delivery_released : Z;
  messaging_delivery_rejected : string -> string -> Z
}.

Definition create_uamqp_disposition_result_from `{Messaging}
  (disposition_result : AMQP_MESSENGER_DISPOSITION_RESULT) : Z :=
  if disposition_result =? AMQP_MESSENGER_DISPOSITION_RESULT_NONE then NULL
  else if disposition_result =? AMQP_MESSENGER_DISPOSITION_RESULT_ACCEPTED then
    messaging_delivery_accepted
  else if disposition_result =? AMQP_MESSENGER_DISPOSITION_RESULT_RELEASED then
    messaging_delivery_released
  else if disposition_result =? AMQP_MESSENGER_DISPOSITION_RESULT_REJECTED then
    messaging_delivery_rejected "Rejected by application" "Rejected by application"
  else NULL.

(** [application] is the verdict the subscribed callback returns for the
    disposition info it is handed. *)
Definition on_message_received_internal_callback `{Messaging}
  (o : DISPOSITION_INFO_OUTCOME)
  (application : AMQP_MESSENGER_MESSAGE_DISPOSITION_INFO -> AMQP_MESSENGER_DISPOSITION_RESULT)
  (msg : Z) : Cmd Z :=
  i <- get ;;
  match create_message_disposition_info o with
  | None => ret messaging_delivery_released
  | Some message_disposition_info =>
      emit (message_received_callback (on_message_received_callback i) msg
              message_disposition_info (on_message_received_context i)) ;;
      ret (create_uamqp_disposition_result_from (application message_disposition_info))
  end.

Definition create_message_receiver (o : LINK_OUTCOME) : Cmd Z :=
  i <- get ;;
  match create_devices_path (devices_path_string o)
          (devices_path_format i) (iothub_host_fqdn i) (device_id i) with
  | None => ret __FAILURE__
  | Some devices_path =>
  match create_link_address (link_address_string o) devices_path (receive_link_source_suffix i) with
  | None => ret __FAILURE__
  | Some receive_link_address =>
  match create_link_name (link_name_string o) MESSAGE_RECEIVER_LINK_NAME_PREFIX (device_id i) with
  | None => ret __FAILURE__
  | Some link_name =>
  match create_link_target_name (endpoint_name_string o) link_name with
  | None => ret __FAILURE__
  | Some target_name =>
      if is_null (messaging_create_target o) then ret __FAILURE__
      else if is_null (messaging_create_source o) then ret __FAILURE__
      else
        emit (call_link_create (session_handle i) link_name false (link_create o)) ;;
        modify (set_receiver_link (link_create o)) ;;
        if is_null (link_create o) then ret __FAILURE__
        else if negb (link_set_rcv_settle_mode o =? RESULT_OK) then
          emit (call_link_destroy (link_create o)) ;;
          modify (set_receiver_link NULL) ;;
          ret __FAILURE__
        else if match receive_link_attach_properties i with
                | Some properties =>
                    negb (add_link_attach_properties (attach_properties o) properties =? RESULT_OK)
                | None => false
                end
        then
          emit (call_link_destroy (link_create o)) ;;
          modify (set_receiver_link NULL) ;;
          ret __FAILURE__
        else
          emit (call_messagereceiver_create (link_create o) (endpoint_create o)) ;;
          modify (set_message_receiver (endpoint_create o)) ;;
          if is_null (endpoint_create o) then
            emit (call_link_destroy (link_create o)) ;;
            modify (set_receiver_link NULL) ;;
            ret __FAILURE__
          else
            emit (call_messagereceiver_open (endpoint_create o)) ;;
            if negb (endpoint_open o =? RESULT_OK) then
              emit (call_messagereceiver_destroy (endpoint_create o)) ;;
              emit (call_link_destroy (link_create o)) ;;
              modify (set_message_receiver NULL) ;;
              modify (set_receiver_link NULL) ;;
              ret __FAILURE__
            else ret RESULT_OK
  end end end end.

(** ** The send path *)

Definition on_message_processing_completed_callback
  (msg : Z) (result : MESSAGE_QUEUE_RESULT) (reason : Z)
  (message_context : option MESSAGE_SEND_CONTEXT) : Cmd unit :=
  match message_context with
  | None => skip
  | Some msg_ctx =>
      i <- get ;;
      messenger_send_result <-
        (if MESSAGE_QUEUE_RESULT_eqb result MESSAGE_QUEUE_SUCCESS then
           ret AMQP_MESSENGER_SEND_RESULT_OK
         else if MESSAGE_QUEUE_RESULT_eqb result MESSAGE_QUEUE_TIMEOUT then
           ret AMQP_MESSENGER_SEND_RESULT_ERROR_TIMEOUT
         else if MESSAGE_QUEUE_RESULT_eqb result MESSAGE_QUEUE_CANCELLED
                 && AMQP_MESSENGER_STATE_eqb (state i) AMQP_MESSENGER_STATE_STOPPED then
           ret AMQP_MESSENGER_SEND_RESULT_MESSENGER_DESTROYED
         else
           modify (set_send_error_count (size_t_incr (send_error_count i))) ;;
           ret AMQP_MESSENGER_SEND_RESULT_ERROR_FAIL_SENDING) ;;
      when (negb (is_null (SendContext.on_send_complete_callback msg_ctx)))
        (emit (send_complete_callback (SendContext.on_send_complete_callback msg_ctx)
                 messenger_send_result (SendContext.user_context msg_ctx))) ;;
      when (negb (SendContext.is_destroyed msg_ctx)) (emit (call_message_destroy msg))
  end.

(** One call of the queue to the completion callback of an item, with the
    arguments it passes. *)
Record COMPLETION : Set := {
  completed_message : Z;
  completed_result : MESSAGE_QUEUE_RESULT;
  completed_reason : Z;
  completed_context : option MESSAGE_SEND_CONTEXT
}.

Definition run_completion (c : COMPLETION) : Cmd unit :=
  on_message_processing_completed_callback
    (completed_message c) (completed_result c) (completed_reason c) (completed_context c).

(** The completion token handed out by the queue is a function of the queue.
    Called by the messenger, it may complete an item on the spot, which is a
    call back into the messenger, or not ([None]). *)
Definition run_token (on_token : option COMPLETION) : Cmd unit :=
  match on_token with
  | Some c => run_completion c
  | None => skip
  end.

(** [on_send_complete_callback]: uAMQP reports the fate of one send; the
    messenger hands it to the completion token of the queue. *)
Definition on_send_complete_callback
  (context : option MESSAGE_SEND_CONTEXT) (send_result : MESSAGE_SEND_RESULT)
  (on_token : option COMPLETION) : Cmd unit :=
  match context with
  | None => skip
  | Some msg_ctx =>
      i <- get ;;
      let mq_result :=
        match send_result with
        | MESSAGE_SEND_OK => MESSAGE_QUEUE_SUCCESS
        | _ => MESSAGE_QUEUE_ERROR
        end in
      emit (call_process_message_completed (send_queue i) (SendContext.message msg_ctx)
              mq_result) ;;
      run_token on_token
  end.

(** The two assignments [on_process_message_callback] makes to the context:
    the token is stored, and the message is marked as destroyed. *)
Definition presented (message_context : MESSAGE_SEND_CONTEXT) (token : Z)
  : MESSAGE_SEND_CONTEXT :=
  {| SendContext.message := SendContext.message message_context;
     SendContext.is_destroyed := true;
     SendContext.on_send_complete_callback :=
       SendContext.on_send_complete_callback message_context;
     SendContext.user_context := SendContext.user_context message_context;
     SendContext.on_process_message_completed_callback := token |}.

(** [on_process_message_callback]: the queue presents a pending message.  The
    context is a heap object shared with the queue; the command returns its
    contents after the call.  [messagesender_send] is the return code of the
    uAMQP call of that name. *)
Definition on_process_message_callback
  (message_queue msg token : Z) (context : option MESSAGE_SEND_CONTEXT)
  (messagesender_send : Z) (on_token : option COMPLETION)
  : Cmd (option MESSAGE_SEND_CONTEXT) :=
  match context with
  | None => ret None
  | Some message_context =>
      if is_null message_queue || is_null msg || is_null token then ret context
      else
        i <- get ;;
        emit (call_messagesender_send (message_sender i) msg) ;;
        when (negb (messagesender_send =? 0))
          (emit (call_process_message_completed message_queue msg MESSAGE_QUEUE_ERROR) ;;
           run_token on_token) ;;
        emit (call_message_destroy msg) ;;
        ret (Some (presented message_context token))
  end.

(** What the message queue does while the messenger waits inside one of its
    calls: it presents pending messages to [on_process_message_callback] and
    completes items through [on_message_processing_completed_callback].  The
    arguments are those the queue passes; [messagesender_send] is the return
    code uAMQP gives to the send attempted for that message, [on_token] what
    the queue does if the messenger calls the token during the
    presentation. *)
Inductive QUEUE_CALLBACK : Set :=
| queue_process_message
    (msg token : Z) (context : option MESSAGE_SEND_CONTEXT) (messagesender_send : Z)
    (on_token : option COMPLETION)
| queue_processing_completed (c : COMPLETION).

Definition run_queue_callback (c : QUEUE_CALLBACK) : Cmd unit :=
  match c with
  | queue_process_message msg token context messagesender_send on_token =>
      i <- get ;;
      _ <- on_process_message_callback (send_queue i) msg token context
             messagesender_send on_token ;;
      skip
  | queue_processing_completed c => run_completion c
  end.

Fixpoint run_queue_callbacks (cs : list QUEUE_CALLBACK) : Cmd unit :=
  match cs with
  | [] => skip
  | c :: rest => run_queue_callback c ;; run_queue_callbacks rest
  end.

(** ** Public API *)

Definition amqp_messenger_subscribe_for_messages
  (messenger_handle callback context : Z) : Cmd Z :=
  if is_null messenger_handle then ret __FAILURE__
  else
    i <- get ;;
    if receive_messages i then ret __FAILURE__
    else if is_null callback then ret __FAILURE__
    else
      modify (set_on_message_received_callback callback) ;;
      modify (set_on_message_received_context context) ;;
      modify (set_receive_messages true) ;;
      ret RESULT_OK.

Definition amqp_messenger_unsubscribe_for_messages (messenger_handle : Z) : Cmd Z :=
  if is_null messenger_handle then ret __FAILURE__
  else
    i <- get ;;
    if negb (receive_messages i) then ret __FAILURE__
    else
      modify (set_receive_messages false) ;;
      modify (set_on_message_received_callback NULL) ;;
      modify (set_on_message_received_context NULL) ;;
      ret RESULT_OK.

(** [send_message_disposition] is the return code of
    [messagereceiver_send_message_disposition]. *)
Definition amqp_messenger_send_message_disposition `{Messaging}
  (messenger_handle : Z)
  (disposition_info : option AMQP_MESSENGER_MESSAGE_DISPOSITION_INFO)
  (disposition_result : AMQP_MESSENGER_DISPOSITION_RESULT)
  (send_message_disposition : Z) : Cmd Z :=
  match disposition_info with
  | None => ret __FAILURE__
  | Some info =>
      if is_null messenger_handle then ret __FAILURE__
      else
        match source info with
        | None => ret __FAILURE__
        | Some link_name =>
            i <- get ;;
            if is_null (message_receiver i) then ret __FAILURE__
            else
              let uamqp_disposition_result :=
                create_uamqp_disposition_result_from disposition_result in
              if is_null uamqp_disposition_result then ret __FAILURE__
              else
                emit (call_messagereceiver_send_message_disposition (message_receiver i)
                        link_name (message_id info) uamqp_disposition_result) ;;
                emit (call_amqpvalue_destroy uamqp_disposition_result) ;;
                if negb (send_message_disposition =? RESULT_OK) then ret __FAILURE__
                else ret RESULT_OK
        end
  end.

(** What [amqp_messenger_send_async] is answered: the handle of the cloned
    message, the allocation of the context, the return code of
    [message_queue_add]. *)
Record SEND_ASYNC_OUTCOME : Set := {
  message_clone : Z;
  send_context_malloc_ok : bool;
  message_queue_add : Z
}.

Definition amqp_messenger_send_async
  (messenger_handle msg on_user_defined_send_complete_callback user_context : Z)
  (o : SEND_ASYNC_OUTCOME) : Cmd Z :=
  if is_null messenger_handle || is_null msg || is_null on_user_defined_send_complete_callback
  then ret __FAILURE__
  else
    let cloned_message := message_clone o in
    if is_null cloned_message then ret __FAILURE__
    else if negb (send_context_malloc_ok o) then
      emit (call_message_destroy cloned_message) ;;
      ret __FAILURE__
    else
      i <- get ;;
      let message_context :=
        {| SendContext.message := cloned_message;
           SendContext.is_destroyed := false;
           SendContext.on_send_complete_callback := on_user_defined_send_complete_callback;
           SendContext.user_context := user_context;
           SendContext.on_process_message_completed_callback := NULL |} in
      emit (call_message_queue_add (send_queue i) cloned_message message_context) ;;
      if negb (message_queue_add o =? RESULT_OK) then
        emit (call_message_destroy cloned_message) ;;
        ret __FAILURE__
      else ret RESULT_OK.

(** [message_queue_is_empty] is the return code of the queue and the flag it
    wrote.  The status written through [send_status], if any, is returned
    next to the result. *)
Definition amqp_messenger_get_send_status
  (messenger_handle send_status : Z) (message_queue_is_empty : Z * bool)
  : Cmd (Z * option AMQP_MESSENGER_SEND_STATUS) :=
  if is_null messenger_handle || is_null send_status then ret (__FAILURE__, None)
  else
    let (queue_result, is_empty) := message_queue_is_empty in
    if negb (queue_result =? 0) then ret (__FAILURE__, None)
    else
      ret (RESULT_OK,
           Some (if is_empty then AMQP_MESSENGER_SEND_STATUS_IDLE
                 else AMQP_MESSENGER_SEND_STATUS_BUSY)).

Definition amqp_messenger_start (messenger_handle session : Z) : Cmd Z :=
  if is_null messenger_handle then ret __FAILURE__
  else if is_null session then ret __FAILURE__
  else
    i <- get ;;
    if negb (AMQP_MESSENGER_STATE_eqb (state i) AMQP_MESSENGER_STATE_STOPPED) then
      ret __FAILURE__
    else
      modify (set_session_handle session) ;;
      update_messenger_state AMQP_MESSENGER_STATE_STARTING ;;
      ret RESULT_OK.

(** [move_all_back_to_pending] is the return code of
    [message_queue_move_all_back_to_pending]. *)
Definition amqp_messenger_stop (messenger_handle : Z) (move_all_back_to_pending : Z) : Cmd Z :=
  if is_null messenger_handle then ret __FAILURE__
  else
    i <- get ;;
    if AMQP_MESSENGER_STATE_eqb (state i) AMQP_MESSENGER_STATE_STOPPED then ret __FAILURE__
    else
      update_messenger_state AMQP_MESSENGER_STATE_STOPPING ;;
      destroy_message_sender ;;
      destroy_message_receiver ;;
      emit (call_message_queue_move_all_back_to_pending (send_queue i)) ;;
      if negb (move_all_back_to_pending =? RESULT_OK) then
        update_messenger_state AMQP_MESSENGER_STATE_ERROR ;;
        ret __FAILURE__
      else
        update_messenger_state AMQP_MESSENGER_STATE_STOPPED ;;
        ret RESULT_OK.

(** [is_timeout_reached start_time timeout_in_secs] is the return code and the
    flag written by the helper of that name, which reads the clock. *)
Definition process_state_changes (is_timeout_reached : Z -> Z -> Z * bool) : Cmd unit :=
  i <- get ;;
  if AMQP_MESSENGER_STATE_eqb (state i) AMQP_MESSENGER_STATE_STARTED then
    if negb (MESSAGE_SENDER_STATE_eqb (message_sender_current_state i) MESSAGE_SENDER_STATE_OPEN)
    then update_messenger_state AMQP_MESSENGER_STATE_ERROR
    else if negb (is_null (message_receiver i))
            && negb (MESSAGE_RECEIVER_STATE_eqb (message_receiver_current_state i)
                       MESSAGE_RECEIVER_STATE_OPEN)
    then
      if MESSAGE_RECEIVER_STATE_eqb (message_receiver_current_state i)
           MESSAGE_RECEIVER_STATE_OPENING
      then
        let (check, is_timed_out) :=
          is_timeout_reached (last_message_receiver_state_change_time i)
            MAX_MESSAGE_RECEIVER_STATE_CHANGE_TIMEOUT_SECS in
        if negb (check =? RESULT_OK) then update_messenger_state AMQP_MESSENGER_STATE_ERROR
        else if is_timed_out then update_messenger_state AMQP_MESSENGER_STATE_ERROR
        else skip
      else if MESSAGE_RECEIVER_STATE_eqb (message_receiver_current_state i)
                MESSAGE_RECEIVER_STATE_ERROR
              || MESSAGE_RECEIVER_STATE_eqb (message_receiver_current_state i)
                   MESSAGE_RECEIVER_STATE_IDLE
      then update_messenger_state AMQP_MESSENGER_STATE_ERROR
      else skip
    else skip
  else if AMQP_MESSENGER_STATE_eqb (state i) AMQP_MESSENGER_STATE_STARTING then
    if MESSAGE_SENDER_STATE_eqb (message_sender_current_state i) MESSAGE_SENDER_STATE_OPEN
    then update_messenger_state AMQP_MESSENGER_STATE_STARTED
    else if MESSAGE_SENDER_STATE_eqb (message_sender_current_state i)
              MESSAGE_SENDER_STATE_OPENING
    then
      let (check, is_timed_out) :=
        is_timeout_reached (last_message_sender_state_change_time i)
          MAX_MESSAGE_SENDER_STATE_CHANGE_TIMEOUT_SECS in
      if negb (check =? RESULT_OK) then update_messenger_state AMQP_MESSENGER_STATE_ERROR
      else if is_timed_out then update_messenger_state AMQP_MESSENGER_STATE_ERROR
      else skip
    else if MESSAGE_SENDER_STATE_eqb (message_sender_current_state i) MESSAGE_SENDER_STATE_ERROR
            || MESSAGE_SENDER_STATE_eqb (message_sender_current_state i)
                 MESSAGE_SENDER_STATE_CLOSING
            || (MESSAGE_SENDER_STATE_eqb (message_sender_current_state i)
                  MESSAGE_SENDER_STATE_IDLE
                && negb (is_null (message_sender i)))
    then update_messenger_state AMQP_MESSENGER_STATE_ERROR
    else skip
  else skip.

(** What one call of [amqp_messenger_do_work] is answered. *)
Record TICK : Set := {
  is_timeout_reached : Z -> Z -> Z * bool;
  sender_outcome : LINK_OUTCOME;
  receiver_outcome : LINK_OUTCOME;
  queue_do_work : list QUEUE_CALLBACK
}.

Definition amqp_messenger_do_work (messenger_handle : Z) (t : TICK) : Cmd unit :=
  if is_null messenger_handle then skip
  else
    process_state_changes (is_timeout_reached t) ;;
    i <- get ;;
    if AMQP_MESSENGER_STATE_eqb (state i) AMQP_MESSENGER_STATE_STARTING then
      if is_null (message_sender i) then
        result <- create_message_sender (sender_outcome t) ;;
        when (negb (result =? RESULT_OK)) (update_messenger_state AMQP_MESSENGER_STATE_ERROR)
      else skip
    else if AMQP_MESSENGER_STATE_eqb (state i) AMQP_MESSENGER_STATE_STARTED then
      receiver_failed <-
        (if receive_messages i && is_null (message_receiver i) then
           result <- create_message_receiver (receiver_outcome t) ;;
           ret (negb (result =? RESULT_OK))
         else ret false) ;;
      (if receiver_failed : bool then skip
       else
         j <- get ;;
         when (negb (receive_messages j) && negb (is_null (message_receiver j)))
           destroy_message_receiver) ;;
      emit (call_message_queue_do_work (send_queue i)) ;;
      run_queue_callbacks (queue_do_work t) ;;
      j <- get ;;
      when (max_send_error_count j <=? send_error_count j)
        (update_messenger_state AMQP_MESSENGER_STATE_ERROR)
    else skip.

(** [queue_destroy] is what the queue does to its remaining items inside
    [message_queue_destroy]. *)
Definition amqp_messenger_destroy (messenger_handle : Z)
  (move_all_back_to_pending : Z) (queue_destroy : list QUEUE_CALLBACK) : Cmd unit :=
  if is_null messenger_handle then skip
  else
    i <- get ;;
    when (negb (AMQP_MESSENGER_STATE_eqb (state i) AMQP_MESSENGER_STATE_STOPPED))
      (_ <- amqp_messenger_stop messenger_handle move_all_back_to_pending ;; skip) ;;
    when (negb (is_null (send_queue i)))
      (emit (call_message_queue_destroy (send_queue i)) ;;
       run_queue_callbacks queue_destroy).

(** [set_max_message_enqueued_time_secs] is the return code of the queue
    setter of that name; [name] and [value] are pointers, [None] being
    [NULL]. *)
Definition amqp_messenger_set_option (messenger_handle : Z)
  (name : option string) (value : option Z)
  (set_max_message_enqueued_time_secs : Z) : Cmd Z :=
  match name, value with
  | Some name, Some value =>
      if is_null messenger_handle then ret __FAILURE__
      else
        i <- get ;;
        if String.eqb MESSENGER_OPTION_EVENT_SEND_TIMEOUT_SECS name then
          emit (call_message_queue_set_max_message_enqueued_time_secs (send_queue i) value) ;;
          if set_max_message_enqueued_time_secs =? 0 then ret __FAILURE__
          else ret RESULT_OK
        else ret __FAILURE__
  | _, _ => ret __FAILURE__
  end.

(** The configuration handed to [amqp_messenger_create]; a [char*] or map
    handle that is [NULL] is [None]. *)
Module Config.
Record AMQP_MESSENGER_CONFIG : Set := {
  device_id : option string;
  iothub_host_fqdn : option string;
  devices_path_format : option string;
  send_link_target_suffix : option string;
  receive_link_source_suffix : option string;
  send_link_attach_properties : option (list (string * string));
  receive_link_attach_properties : option (list (string * string));
  on_state_changed_callback : Z;
  on_state_changed_context : Z
}.
End Config.
Definition AMQP_MESSENGER_CONFIG : Set := Config.AMQP_MESSENGER_CONFIG.

(** What [amqp_messenger_create] is answered: the allocation of the instance,
    the return codes of the five string copies, whether each [Map_Clone]
    returned a map, and the handle of the new queue. *)
Record CREATE_OUTCOME : Set := {
  instance_malloc_ok : bool;
  copy_device_id : Z;
  copy_iothub_host_fqdn : Z;
  copy_devices_path_format : Z;
  copy_send_link_target_suffix : Z;
  copy_receive_link_source_suffix : Z;
  Map_Clone_send_ok : bool;
  Map_Clone_receive_ok : bool;
  message_queue_create : Z
}.

(** The instance once every step of [amqp_messenger_create] has succeeded. *)
Definition created_instance
  (id host format send_suffix receive_suffix : string)
  (send_properties receive_properties : option (list (string * string)))
  (callback context queue : Z) : AMQP_MESSENGER_INSTANCE :=
  {| device_id := id;
     iothub_host_fqdn := host;
     devices_path_format := format;
     send_link_target_suffix := send_suffix;
     receive_link_source_suffix := receive_suffix;
     on_state_changed_callback := callback;
     on_state_changed_context := context;
     receive_messages := false;
     on_message_received_callback := NULL;
     on_message_received_context := NULL;
     send_queue := queue;
     state := AMQP_MESSENGER_STATE_STOPPED;
     session_handle := NULL;
     sender_link := NULL;
     message_sender := NULL;
     message_sender_current_state := MESSAGE_SENDER_STATE_IDLE;
     message_sender_previous_state := MESSAGE_SENDER_STATE_IDLE;
     receiver_link := NULL;
     message_receiver := NULL;
     message_receiver_current_state := MESSAGE_RECEIVER_STATE_IDLE;
     message_receiver_previous_state := MESSAGE_RECEIVER_STATE_IDLE;
     send_link_attach_properties := send_properties;
     receive_link_attach_properties := receive_properties;
     send_error_count := 0;
     max_send_error_count := DEFAULT_MAX_SEND_ERROR_COUNT;
     last_message_sender_state_change_time := INDEFINITE_TIME;
     last_message_receiver_state_change_time := INDEFINITE_TIME |}.

(** [amqp_messenger_create]: [None] is the [NULL] handle. *)
Definition amqp_messenger_create
  (messenger_config : option AMQP_MESSENGER_CONFIG) (o : CREATE_OUTCOME)
  : option AMQP_MESSENGER_INSTANCE :=
  match messenger_config with
  | None => None
  | Some config =>
      match Config.device_id config, Config.iothub_host_fqdn config,
            Config.devices_path_format config,
            Config.receive_link_source_suffix config,
            Config.send_link_target_suffix config with
      | Some id, Some host, Some format, Some receive_suffix, Some send_suffix =>
          if negb (instance_malloc_ok o) then None
          else if negb (copy_device_id o =? 0) then None
          else if negb (copy_iothub_host_fqdn o =? 0) then None
          else if negb (copy_devices_path_format o =? 0) then None
          else if negb (copy_send_link_target_suffix o =? 0) then None
          else if negb (copy_receive_link_source_suffix o =? 0) then None
          else if match Config.send_link_attach_properties config with
                  | Some _ => negb (Map_Clone_send_ok o)
                  | None => false
                  end then None
          else if match Config.receive_link_attach_properties config with
                  | Some _ => negb (Map_Clone_receive_ok o)
                  | None => false
                  end then None
          else if is_null (message_queue_create o) then None
          else
            Some (created_instance id host format send_suffix receive_suffix
                    (Config.send_link_attach_properties config)
                    (Config.receive_link_attach_properties config)
                    (Config.on_state_changed_callback config)
                    (Config.on_state_changed_context config)
                    (message_queue_create o))
      | _, _, _, _, _ => None
      end
  end.

(** ** The twin messenger

    Of [iothub_client/src/iothubtransport_amqp_twin_messenger.c]: the
    creation of a twin messenger, the only source of twin messenger handles,
    and the send-status query. *)

(** Integer value of an enumerator of [AMQP_MESSENGER_SEND_STATUS], in the
    order of [AMQP_MESSENGER_SEND_STATUS_STRINGS]. *)
Definition AMQP_MESSENGER_SEND_STATUS_value (s : AMQP_MESSENGER_SEND_STATUS) : Z :=
  match s with
  | AMQP_MESSENGER_SEND_STATUS_IDLE => 0
  | AMQP_MESSENGER_SEND_STATUS_BUSY => 1
  end.

(** The truth value C gives to an integer used as a condition. *)
Definition c_true (n : Z) : bool := negb (n =? 0).

Inductive TWIN_MESSENGER_SEND_STATUS : Set :=
| TWIN_MESSENGER_SEND_STATUS_IDLE
| TWIN_MESSENGER_SEND_STATUS_BUSY.



Definition DEFAULT_AMQP_RECEIVE_LINK_ATTACH_PROPERTIES : Z := NULL.

Module Twin.

(** [TWIN_MESSENGER_STATE] is declared outside these sources; the module
    names one of its values. *)
Inductive TWIN_MESSENGER_STATE : Set :=
| TWIN_MESSENGER_STATE_STOPPED
| TWIN_MESSENGER_STATE_UNLISTED (raw : Z).

(** The structure [TWIN_MESSENGER_INSTANCE], private to the translation
    unit.  A [char*] that is [NULL] is [None]. *)
Record TWIN_MESSENGER_INSTANCE : Set := {
  device_id : option string;
  iothub_host_fqdn : option string;
  state : TWIN_MESSENGER_STATE;
  on_state_changed_callback : Z;
  on_state_changed_context : Z;
  receive_messages : bool;
  on_message_received_callback : Z;
  on_message_received_context : Z;
  amqp_msgr : Z
}.

End Twin.
Definition TWIN_MESSENGER_INSTANCE : Set := Twin.TWIN_MESSENGER_INSTANCE.

(** The fields of [TWIN_MESSENGER_CONFIG] that the module reads; the
    structure is declared outside these sources. *)
Module TwinConfig.
Record TWIN_MESSENGER_CONFIG : Set := {
  device_id : option string;
  iothub_host_fqdn : option string;
  on_state_changed_callback : Z;
  on_state_changed_context : Z
}.
End TwinConfig.
Definition TWIN_MESSENGER_CONFIG : Set := TwinConfig.TWIN_MESSENGER_CONFIG.









(** Address of the local variable [amqp_send_status]. *)
Definition address_of_amqp_send_status : Z := 1.

(** The handle is the instance it points to, or [None] for [NULL]. *)
Definition twin_messenger_get_send_status
  (twin_msgr_handle : option TWIN_MESSENGER_INSTANCE) (send_status : Z)
  (message_queue_is_empty : Z * bool)
  : Cmd (Z * option TWIN_MESSENGER_SEND_STATUS) :=
  match twin_msgr_handle with
  | None => ret (__FAILURE__, None)
  | Some twin_msgr =>
      if is_null send_status then ret (__FAILURE__, None)
      else
        r <- amqp_messenger_get_send_status (Twin.amqp_msgr twin_msgr)
               address_of_amqp_send_status message_queue_is_empty ;;
        let (amqp_result, amqp_send_status) := r : Z * option AMQP_MESSENGER_SEND_STATUS in
        if negb (amqp_result =? 0) then ret (__FAILURE__, None)
        else
          ret (RESULT_OK,
               Some (if c_true (AMQP_MESSENGER_SEND_STATUS_value AMQP_MESSENGER_SEND_STATUS_BUSY)
                     then TWIN_MESSENGER_SEND_STATUS_BUSY
                     else TWIN_MESSENGER_SEND_STATUS_IDLE))
  end.

(** ** Observations on traces *)

(** The user completions recorded in a trace: callback, result and context of
    every [send_complete_callback], oldest first. *)
Fixpoint send_completions (tr : list Event) : list (Z * AMQP_MESSENGER_SEND_RESULT * Z) :=
  match tr with
  | [] => []
  | send_complete_callback callback result context :: rest =>
      (callback, result, context) :: send_completions rest
  | _ :: rest => send_completions rest
  end.

(** ** The send queue

    Modelled from the spec: the message queue ([message_queue.h],
    [message_queue.c]) is not part of these sources.  The definitions of this
    section follow section 4.3 of the specification: a pending and an
    in-flight partition, FIFO presentation of the pending items by the
    queue's [do_work], a Timeout completion for items that aged out before
    being presented, no retry (retry limit 0) and no processing time-out
    (bound 0), every item completed through its completion callback, the
    remaining items cancelled when the queue is destroyed. *)

(** Modelled from the spec: a queue item, "references a SendContext, records
    its enqueue timestamp". *)
Record QUEUE_ITEM : Set := {
  item_message : Z;
  item_context : MESSAGE_SEND_CONTEXT;
  item_enqueued_at : Z
}.






(** Modelled from the spec: the completion token the queue hands to
    [on_process_message]; a function of the queue, here its address. *)
Definition queue_token : Z := 45056.

(** Modelled from the spec: the call by which the queue completes an item,
    "the queue then invokes the per-item completion". *)
Definition item_completion (it : QUEUE_ITEM) (context : MESSAGE_SEND_CONTEXT)
  (result : MESSAGE_QUEUE_RESULT) : COMPLETION :=
  {| completed_message := item_message it;
     completed_result := result;
     completed_reason := 0;
     completed_context := Some context |}.

(** The context of an item once [on_process_message_callback] has stored the
    token in it, before the message is marked as destroyed. *)
Definition with_token (message_context : MESSAGE_SEND_CONTEXT) (token : Z)
  : MESSAGE_SEND_CONTEXT :=
  {| SendContext.message := SendContext.message message_context;
     SendContext.is_destroyed := SendContext.is_destroyed message_context;
     SendContext.on_send_complete_callback :=
       SendContext.on_send_complete_callback message_context;
     SendContext.user_context := SendContext.user_context message_context;
     SendContext.on_process_message_completed_callback := token |}.


(** Modelled from the spec: the presentation of one pending item, "a pending
    item becomes in-flight when [do_work] presents it to
    [on_process_message]"; with a retry limit of 0 a token fired with Error
    completes the item. *)
Definition present_item (messagesender_send : QUEUE_ITEM -> Z) (it : QUEUE_ITEM)
  : QUEUE_CALLBACK :=
  queue_process_message (item_message it) queue_token (Some (item_context it))
    (messagesender_send it)
    (Some (item_completion it (with_token (item_context it) queue_token)
             MESSAGE_QUEUE_ERROR)).









(** The events a step has added to the trace: what [w'] records beyond
    [w]. *)
Definition new_events (w w' : World) : list Event :=
  skipn (List.length (trace w)) (trace w').























(** A command that only adds events satisfying [Q] to the trace. *)
Definition emits_only (Q : Event -> Prop) {A} (c : Cmd A) : Prop :=
  forall w, exists added, trace (exec c w) = (trace w ++ added)%list /\ Forall Q added.

(** The events that do not ask a queue to work. *)
Definition not_message_queue_do_work (e : Event) : Prop :=
  match e with
  | call_message_queue_do_work _ => False
  | _ => True
  end.




(** ** Vocabulary of the properties *)

(** The fields that only creation and destruction of the links touch. *)
Definition links_absent (i : AMQP_MESSENGER_INSTANCE) : Prop :=
  sender_link i = NULL /\ message_sender i = NULL
  /\ receiver_link i = NULL /\ message_receiver i = NULL.

(** Two instances that differ at most in the fields the link code writes:
    handles, mirrored link states and their time stamps. *)
Definition same_but_links (i j : AMQP_MESSENGER_INSTANCE) : Prop :=
  state j = state i
  /\ send_error_count j = send_error_count i
  /\ max_send_error_count j = max_send_error_count i
  /\ receive_messages j = receive_messages i
  /\ send_queue j = send_queue i
  /\ on_state_changed_callback j = on_state_changed_callback i
  /\ on_state_changed_context j = on_state_changed_context i.

(** The call to the state observer made when the state goes from [previous]
    to [new]: none if the state does not change or no observer is installed. *)
Definition observer_calls (i : AMQP_MESSENGER_INSTANCE)
  (previous new : AMQP_MESSENGER_STATE) : list Event :=
  if AMQP_MESSENGER_STATE_eqb new previous || is_null (on_state_changed_callback i) then []
  else [state_changed_callback (on_state_changed_context i) previous new].

(** The library calls that tear down whatever exists of the sending side and
    of the receiving side of an instance. *)
Definition sender_teardown (i : AMQP_MESSENGER_INSTANCE) : list Event :=
  ((if is_null (message_sender i) then []
    else [call_messagesender_destroy (message_sender i)])
   ++ (if is_null (sender_link i) then [] else [call_link_destroy (sender_link i)]))%list.

Definition receiver_teardown (i : AMQP_MESSENGER_INSTANCE) : list Event :=
  ((if is_null (message_receiver i) then []
    else [call_messagereceiver_close (message_receiver i);
          call_messagereceiver_destroy (message_receiver i)])
   ++ (if is_null (receiver_link i) then [] else [call_link_destroy (receiver_link i)]))%list.

(** Modelled from the spec: [is_timeout_reached], the helper that compares the
    clock with a time stamp, is not part of these sources.  The specification
    says that a link must reach Open "within" the time-out counted "from the
    last observed change": at clock value [now] the helper succeeds and
    reports a time-out once more than [timeout_in_secs] seconds have passed
    since [start_time]. *)
Definition is_timeout_reached_at (now start_time timeout_in_secs : Z) : Z * bool :=
  (RESULT_OK, timeout_in_secs <? now - start_time).

(** The reading of the Starting-to-Error rule that ignores sender creation,
    a failing time-out check and the send-error threshold: a tick taken at
    clock value [now] ends in Error exactly when the sender reports Error or
    Closing, or Idle while the sender object exists, or has been Opening for
    more than the time-out. *)
Definition starting_error_exactly_on_sender_report
  (now h : Z) (t : TICK) (w : World) : Prop :=
  let i := instance w in
  state (instance (exec (amqp_messenger_do_work h t) w)) = AMQP_MESSENGER_STATE_ERROR
  <->
  (message_sender_current_state i = MESSAGE_SENDER_STATE_ERROR
   \/ message_sender_current_state i = MESSAGE_SENDER_STATE_CLOSING
   \/ (message_sender_current_state i = MESSAGE_SENDER_STATE_IDLE /\ message_sender i <> NULL)
   \/ (message_sender_current_state i = MESSAGE_SENDER_STATE_OPENING
       /\ MAX_MESSAGE_SENDER_STATE_CHANGE_TIMEOUT_SECS
          < now - last_message_sender_state_change_time i)).

(** Two instances with the same messenger state and the same link objects. *)
Definition same_state_and_links (i j : AMQP_MESSENGER_INSTANCE) : Prop :=
  state j = state i
  /\ sender_link j = sender_link i /\ message_sender j = message_sender i
  /\ receiver_link j = receiver_link i /\ message_receiver j = message_receiver i.

(** The invariant of the Stopped state. *)
Definition stopped_without_links (i : AMQP_MESSENGER_INSTANCE) : Prop :=
  state i = AMQP_MESSENGER_STATE_STOPPED -> links_absent i.

(** ** A concrete messenger

    The first scenario of the specification: device [d1] on host [h], with a
    state observer, the library answering every call with success. *)

Definition scenario_config : AMQP_MESSENGER_CONFIG :=
  {| Config.device_id := Some "d1";
     Config.iothub_host_fqdn := Some "h";
     Config.devices_path_format := Some "%s/devices/%s";
     Config.send_link_target_suffix := Some "/messages/events";
     Config.receive_link_source_suffix := Some "/messages/devicebound";
     Config.send_link_attach_properties := None;
     Config.receive_link_attach_properties := None;
     Config.on_state_changed_callback := 4096;
     Config.on_state_changed_context := 4100 |}.

Definition scenario_create_outcome : CREATE_OUTCOME :=
  {| instance_malloc_ok := true;
     copy_device_id := 0;
     copy_iothub_host_fqdn := 0;
     copy_devices_path_format := 0;
     copy_send_link_target_suffix := 0;
     copy_receive_link_source_suffix := 0;
     Map_Clone_send_ok := true;
     Map_Clone_receive_ok := true;
     message_queue_create := 8192 |}.

Definition scenario_instance : AMQP_MESSENGER_INSTANCE :=
  created_instance "d1" "h" "%s/devices/%s" "/messages/events" "/messages/devicebound"
    None None 4096 4100 8192.

Definition scenario_world : World := {| instance := scenario_instance; trace := [] |}.

(** Address of the messenger instance of the scenario. *)
Definition scenario_handle : Z := 12288.

Definition strings_ok : STRING_OUTCOME :=
  {| STRING_new_ok := true; STRING_sprintf_ok := true |}.

Definition attach_ok : ATTACH_OUTCOME :=
  {| amqpvalue_create_map_ok := true;
     Map_GetInternals_ok := true;
     amqpvalue_create_symbol_ok := fun _ => true;
     amqpvalue_create_string_ok := fun _ => true;
     amqpvalue_set_map_value := fun _ _ => 0;
     link_set_attach_properties := 0 |}.

(** Link creation succeeding with the given link and endpoint handles. *)
Definition link_ok (link endpoint : Z) : LINK_OUTCOME :=
  {| devices_path_string := strings_ok;
     link_address_string := strings_ok;
     link_name_string :=
       {| unique_id_malloc_ok := true;
          UniqueId_Generate := Some "2f1a6f0e-7c55-4d6b-9a43-0d7a3c1e5b90";
          tag_string := strings_ok |};
     endpoint_name_string := strings_ok;
     messaging_create_source := 20480;
     messaging_create_target := 20484;
     link_create := link;
     link_set_rcv_settle_mode := 0;
     attach_properties := attach_ok;
     link_set_max_message_size := 0;
     endpoint_create := endpoint;
     endpoint_open := 0 |}.

(** Link creation failing at [link_create]. *)
Definition link_create_fails : LINK_OUTCOME :=
  {| devices_path_string := strings_ok;
     link_address_string := strings_ok;
     link_name_string :=
       {| unique_id_malloc_ok := true;
          UniqueId_Generate := Some "2f1a6f0e-7c55-4d6b-9a43-0d7a3c1e5b90";
          tag_string := strings_ok |};
     endpoint_name_string := strings_ok;
     messaging_create_source := 20480;
     messaging_create_target := 20484;
     link_create := NULL;
     link_set_rcv_settle_mode := 0;
     attach_properties := attach_ok;
     link_set_max_message_size := 0;
     endpoint_create := NULL;
     endpoint_open := 0 |}.

(** A send context as [amqp_messenger_send_async] builds it. *)
Definition scenario_context : MESSAGE_SEND_CONTEXT :=
  {| SendContext.message := 24576;
     SendContext.is_destroyed := false;
     SendContext.on_send_complete_callback := 28672;
     SendContext.user_context := 28676;
     SendContext.on_process_message_completed_callback := NULL |}.

(** The scenario messenger once started: sender link open since time [1000],
    [errors] failed sends so far. *)
Definition started_instance (errors : Z) : AMQP_MESSENGER_INSTANCE :=
  set_send_error_count errors
    (set_last_message_sender_state_change_time 1000
       (set_message_sender_previous_state MESSAGE_SENDER_STATE_OPENING
          (set_message_sender_current_state MESSAGE_SENDER_STATE_OPEN
             (set_message_sender 16388
                (set_sender_link 16384
                   (set_session_handle 16380
                      (set_state AMQP_MESSENGER_STATE_STARTED scenario_instance))))))).

Definition started_world (errors : Z) : World :=
  {| instance := started_instance errors; trace := [] |}.

(** A clock-free answer of [is_timeout_reached]: success, not timed out. *)
Definition never_timed_out : Z -> Z -> Z * bool := fun _ _ => (RESULT_OK, false).

(** A tick during which the queue completes one in-flight send with an
    error. *)
Definition tick_with_one_failed_send : TICK :=
  {| is_timeout_reached := never_timed_out;
     sender_outcome := link_ok 16384 16388;
     receiver_outcome := link_ok 16392 16396;
     queue_do_work :=
       [queue_processing_completed
          {| completed_message := 24576;
             completed_result := MESSAGE_QUEUE_ERROR;
             completed_reason := 0;
             completed_context := Some scenario_context |}] |}.

(** The scenario messenger right after [amqp_messenger_start]: Starting, no
    sender yet. *)
Definition starting_instance : AMQP_MESSENGER_INSTANCE :=
  set_session_handle 16380 (set_state AMQP_MESSENGER_STATE_STARTING scenario_instance).

Definition starting_world : World := {| instance := starting_instance; trace := [] |}.

(** The scenario messenger one tick later: the sender was created and reported
    Opening at time [1000]. *)
Definition opening_instance : AMQP_MESSENGER_INSTANCE :=
  set_last_message_sender_state_change_time 1000
    (set_message_sender_previous_state MESSAGE_SENDER_STATE_IDLE
       (set_message_sender_current_state MESSAGE_SENDER_STATE_OPENING
          (set_message_sender 16388 (set_sender_link 16384 starting_instance)))).

Definition opening_world : World := {| instance := opening_instance; trace := [] |}.

(** A tick at clock value [1001] during which [link_create] fails and the
    queue is idle. *)
Definition tick_link_create_fails : TICK :=
  {| is_timeout_reached := is_timeout_reached_at 1001;
     sender_outcome := link_create_fails;
     receiver_outcome := link_create_fails;
     queue_do_work := [] |}.

(** An uneventful tick at clock value [now], the time-out helper being the
    one modelled from the specification. *)
Definition tick_at (now : Z) : TICK :=
  {| is_timeout_reached := is_timeout_reached_at now;
     sender_outcome := link_ok 16384 16388;
     receiver_outcome := link_ok 16392 16396;
     queue_do_work := [] |}.

(** The delivery outcomes as distinct non-null handles. *)
Definition scenario_messaging : Messaging :=
  {| messaging_delivery_accepted := 32768;
     messaging_delivery_released := 32772;
     messaging_delivery_rejected := fun _ _ => 32776 |}.

(** The message receiver cannot tell the delivery identifier. *)
Definition delivery_id_unavailable : DISPOSITION_INFO_OUTCOME :=
  {| disposition_info_malloc_ok := true;
     messagereceiver_get_received_message_id := (__FAILURE__, 0);
     messagereceiver_get_link_name := (RESULT_OK, "link-rcv-d1-2f1a6f0e");
     mallocAndStrcpy_s := 0 |}.



(** The claim that the time-out option reports success exactly when the queue
    setter returns zero. *)
Definition set_option_succeeds_when_setter_returns_zero
  (h value setter : Z) (w : World) : Prop :=
  eval (amqp_messenger_set_option h (Some MESSENGER_OPTION_EVENT_SEND_TIMEOUT_SECS)
          (Some value) setter) w = RESULT_OK
  <-> setter = 0.

(** ** Runs of a messenger

    Everything that can happen to a live messenger: the calls of its public
    interface, with what they are answered, and the callbacks the libraries
    make into the module between two calls. *)
Inductive API_CALL : Type :=
| api_start (h session : Z)
| api_stop (h move_all_back_to_pending : Z)
| api_do_work (h : Z) (t : TICK)
| api_subscribe_for_messages (h callback context : Z)
| api_unsubscribe_for_messages (h : Z)
| api_send_async (h msg callback context : Z) (o : SEND_ASYNC_OUTCOME)
| api_get_send_status (h send_status : Z) (message_queue_is_empty : Z * bool)
| api_set_option (h : Z) (name : option string) (value : option Z) (setter : Z)
| api_send_message_disposition
    (h : Z) (info : option AMQP_MESSENGER_MESSAGE_DISPOSITION_INFO)
    (verdict : AMQP_MESSENGER_DISPOSITION_RESULT) (send_message_disposition : Z)
| lib_message_sender_state_changed
    (context : Z) (new_state previous_state : MESSAGE_SENDER_STATE) (now : Z)
| lib_message_receiver_state_changed
    (context : Z) (new_state previous_state : MESSAGE_RECEIVER_STATE) (now : Z)
| lib_message_received
    (o : DISPOSITION_INFO_OUTCOME)
    (application : AMQP_MESSENGER_MESSAGE_DISPOSITION_INFO -> AMQP_MESSENGER_DISPOSITION_RESULT)
    (msg : Z)
| lib_send_complete
    (context : option MESSAGE_SEND_CONTEXT) (send_result : MESSAGE_SEND_RESULT)
    (on_token : option COMPLETION)
| lib_queue_callback (c : QUEUE_CALLBACK).

Definition run_call `{Messaging} (c : API_CALL) : Cmd unit :=
  match c with
  | api_start h session => _ <- amqp_messenger_start h session ;; skip
  | api_stop h move => _ <- amqp_messenger_stop h move ;; skip
  | api_do_work h t => amqp_messenger_do_work h t
  | api_subscribe_for_messages h callback context =>
      _ <- amqp_messenger_subscribe_for_messages h callback context ;; skip
  | api_unsubscribe_for_messages h =>
      _ <- amqp_messenger_unsubscribe_for_messages h ;; skip
  | api_send_async h msg callback context o =>
      _ <- amqp_messenger_send_async h msg callback context o ;; skip
  | api_get_send_status h send_status q =>
      _ <- amqp_messenger_get_send_status h send_status q ;; skip
  | api_set_option h name value setter =>
      _ <- amqp_messenger_set_option h name value setter ;; skip
  | api_send_message_disposition h info verdict rc =>
      _ <- amqp_messenger_send_message_disposition h info verdict rc ;; skip
  | lib_message_sender_state_changed context new_state previous_state now =>
      on_message_sender_state_changed_callback context new_state previous_state now
  | lib_message_receiver_state_changed context new_state previous_state now =>
      on_message_receiver_state_changed_callback context new_state previous_state now
  | lib_message_received o application msg =>
      _ <- on_message_received_internal_callback o application msg ;; skip
  | lib_send_complete context send_result on_token =>
      on_send_complete_callback context send_result on_token
  | lib_queue_callback c => run_queue_callback c
  end.

Fixpoint run_calls `{Messaging} (cs : list API_CALL) : Cmd unit :=
  match cs with
  | [] => skip
  | c :: rest => run_call c ;; run_calls rest
  end.

(** The worlds a messenger can be in: freshly created, or one call later. *)
Inductive reachable `{Messaging} : World -> Prop :=
| reachable_created (config : option AMQP_MESSENGER_CONFIG) (o : CREATE_OUTCOME)
    (i : AMQP_MESSENGER_INSTANCE) :
    amqp_messenger_create config o = Some i ->
    reachable {| instance := i; trace := [] |}
| reachable_step (w : World) (c : API_CALL) :
    reachable w -> reachable (exec (run_call c) w).

(** A short life: start, a tick that opens the sender, the sender reporting
    Opening then Open, a tick, a subscription, a tick that opens the receiver,
    and a stop. *)
Definition scenario_calls : list API_CALL :=
  [ api_start scenario_handle 16380;
    api_do_work scenario_handle (tick_at 1000);
    lib_message_sender_state_changed scenario_handle
      MESSAGE_SENDER_STATE_OPENING MESSAGE_SENDER_STATE_IDLE 1000;
    lib_message_sender_state_changed scenario_handle
      MESSAGE_SENDER_STATE_OPEN MESSAGE_SENDER_STATE_OPENING 1001;
    api_do_work scenario_handle (tick_at 1002);
    api_subscribe_for_messages scenario_handle 36864 36868;
    api_do_work scenario_handle (tick_at 1003);
    api_stop scenario_handle 0 ].









(** * Properties *)

Lemma send_completions_app (a b : list Event) :
  send_completions (a ++ b) = (send_completions a ++ send_completions b)%list.
Proof.
  induction a as [|e a IH]; simpl; [reflexivity|].
  destruct e; simpl; rewrite ?IH; reflexivity.
Qed.

Ltac run_cmd :=
  unfold exec, eval, bind, get, modify, emit, when, skip, ret in *; cbn in *.

(** Running a sequence is running its parts. *)
Lemma exec_bind {A B} (c : Cmd A) (k : A -> Cmd B) (w : World) :
  exec (bind c k) w = exec (k (eval c w)) (exec c w).
Proof. unfold exec, eval, bind. destruct (c w); reflexivity. Qed.

Lemma eval_bind {A B} (c : Cmd A) (k : A -> Cmd B) (w : World) :
  eval (bind c k) w = eval (k (eval c w)) (exec c w).
Proof. unfold exec, eval, bind. destruct (c w); reflexivity. Qed.

Lemma exec_get (w : World) : exec get w = w.
Proof. reflexivity. Qed.

Lemma eval_get (w : World) : eval get w = instance w.
Proof. reflexivity. Qed.

Lemma exec_ret {A} (a : A) (w : World) : exec (ret a) w = w.
Proof. reflexivity. Qed.

Lemma eval_ret {A} (a : A) (w : World) : eval (ret a) w = a.
Proof. reflexivity. Qed.

Lemma exec_skip (w : World) : exec skip w = w.
Proof. reflexivity. Qed.

Lemma exec_modify (f : AMQP_MESSENGER_INSTANCE -> AMQP_MESSENGER_INSTANCE) (w : World) :
  exec (modify f) w = {| instance := f (instance w); trace := trace w |}.
Proof. reflexivity. Qed.

Lemma exec_emit (e : Event) (w : World) :
  exec (emit e) w = {| instance := instance w; trace := (trace w ++ [e])%list |}.
Proof. reflexivity. Qed.

Lemma size_t_incr_below (n : Z) : 0 <= n < SIZE_MAX -> size_t_incr n = n + 1.
Proof.
  intros Hn. unfold size_t_incr. apply Z.mod_small. lia.
Qed.

(** ** Completion routing *)

(** C1 -- A completion of the queue for an enqueued send (a context with a
    user callback) invokes that callback once with: OK for Success,
    ErrorTimeout for Timeout, MessengerDestroyed for Cancelled while the
    messenger is Stopped, and ErrorFailSending in every other case, which is
    the only case that changes [send_error_count], incrementing it by one (in
    [size_t] arithmetic). *)
Theorem completion_result_mapping :
  forall (w : World) (msg reason : Z) (result : MESSAGE_QUEUE_RESULT)
         (ctx : MESSAGE_SEND_CONTEXT),
    SendContext.on_send_complete_callback ctx <> NULL ->
    let w' := exec (on_message_processing_completed_callback msg result reason (Some ctx)) w in
    let delivered r :=
      send_completions (trace w') =
      (send_completions (trace w)
         ++ [(SendContext.on_send_complete_callback ctx, r, SendContext.user_context ctx)])%list in
    let count := send_error_count (instance w) in
    let count' := send_error_count (instance w') in
    (result = MESSAGE_QUEUE_SUCCESS ->
       delivered AMQP_MESSENGER_SEND_RESULT_OK /\ count' = count)
    /\ (result = MESSAGE_QUEUE_TIMEOUT ->
       delivered AMQP_MESSENGER_SEND_RESULT_ERROR_TIMEOUT /\ count' = count)
    /\ (result = MESSAGE_QUEUE_CANCELLED ->
        state (instance w) = AMQP_MESSENGER_STATE_STOPPED ->
       delivered AMQP_MESSENGER_SEND_RESULT_MESSENGER_DESTROYED /\ count' = count)
    /\ (result <> MESSAGE_QUEUE_SUCCESS ->
        result <> MESSAGE_QUEUE_TIMEOUT ->
        ~ (result = MESSAGE_QUEUE_CANCELLED
           /\ state (instance w) = AMQP_MESSENGER_STATE_STOPPED) ->
       delivered AMQP_MESSENGER_SEND_RESULT_ERROR_FAIL_SENDING
       /\ count' = size_t_incr count
       /\ (0 <= count < SIZE_MAX -> count' = count + 1)).
Proof.
  intros [i tr] msg reason result ctx Hcb.
  assert (Hnn : is_null (SendContext.on_send_complete_callback ctx) = false)
    by (apply Z.eqb_neq; exact Hcb).
  unfold on_message_processing_completed_callback.
  split; [|split; [|split]].
  - intros ->. run_cmd. rewrite Hnn. cbn.
    destruct (SendContext.is_destroyed ctx); cbn;
      rewrite !send_completions_app; cbn; rewrite ?app_nil_r; split; reflexivity.
  - intros ->. run_cmd. rewrite Hnn. cbn.
    destruct (SendContext.is_destroyed ctx); cbn;
      rewrite !send_completions_app; cbn; rewrite ?app_nil_r; split; reflexivity.
  - intros -> Hst. run_cmd. rewrite Hst, Hnn. cbn.
    destruct (SendContext.is_destroyed ctx); cbn;
      rewrite !send_completions_app; cbn; rewrite ?app_nil_r; split; reflexivity.
  - intros H1 H2 H3. run_cmd.
    destruct result; try congruence; cbn;
      try (destruct (state i) eqn:Hst; cbn; try (exfalso; apply H3; split; reflexivity));
      rewrite Hnn; cbn;
      destruct (SendContext.is_destroyed ctx); cbn;
      rewrite !send_completions_app; cbn; rewrite ?app_nil_r;
      (split; [reflexivity | split; [reflexivity | apply size_t_incr_below]]).
Qed.

Lemma completion_result_mapping_witness :
  SendContext.on_send_complete_callback scenario_context <> NULL
  /\ send_completions
       (trace (exec (on_message_processing_completed_callback 24576 MESSAGE_QUEUE_ERROR 0
                       (Some scenario_context)) scenario_world))
     = [(28672, AMQP_MESSENGER_SEND_RESULT_ERROR_FAIL_SENDING, 28676)]
  /\ send_error_count
       (instance (exec (on_message_processing_completed_callback 24576 MESSAGE_QUEUE_ERROR 0
                          (Some scenario_context)) scenario_world))
     = 1.
Proof.
  assert (Hcb : SendContext.on_send_complete_callback scenario_context <> NULL)
    by (cbn; discriminate).
  split; [exact Hcb|].
  destruct (completion_result_mapping scenario_world 24576 0 MESSAGE_QUEUE_ERROR
              scenario_context Hcb) as (_ & _ & _ & Hother).
  destruct Hother as (Hdelivered & _ & Hcount).
  - discriminate.
  - discriminate.
  - intros [Hc _]. discriminate Hc.
  - split; [exact Hdelivered|].
    rewrite Hcount; [reflexivity | cbn; unfold SIZE_MAX; lia].
Defined.

(** ** How each command changes the instance *)

Ltac break_one :=
  match goal with
  | |- context [if ?b then _ else _] => destruct b eqn:?
  | |- context [match ?x with _ => _ end] => destruct x eqn:?
  end.

Ltac break_all := repeat (cbn in *; break_one).

Lemma set_state_same (i : AMQP_MESSENGER_INSTANCE) : set_state (state i) i = i.
Proof. destruct i; reflexivity. Qed.

Lemma AMQP_MESSENGER_STATE_eqb_eq (a b : AMQP_MESSENGER_STATE) :
  AMQP_MESSENGER_STATE_eqb a b = true <-> a = b.
Proof. destruct a, b; cbn; split; intros H; congruence. Qed.

Lemma update_messenger_state_instance (s : AMQP_MESSENGER_STATE) (w : World) :
  instance (exec (update_messenger_state s) w) = set_state s (instance w).
Proof.
  destruct w as [i tr]. unfold update_messenger_state. run_cmd.
  destruct (AMQP_MESSENGER_STATE_eqb s (state i)) eqn:E; cbn.
  - apply AMQP_MESSENGER_STATE_eqb_eq in E. subst s. symmetry. apply set_state_same.
  - destruct (is_null (on_state_changed_callback i)); reflexivity.
Qed.

(** The observer is told of a change only when the state really changes. *)
Lemma update_messenger_state_trace (s : AMQP_MESSENGER_STATE) (w : World) :
  trace (exec (update_messenger_state s) w) =
  (trace w ++
   (if AMQP_MESSENGER_STATE_eqb s (state (instance w))
       || is_null (on_state_changed_callback (instance w))
    then []
    else [state_changed_callback (on_state_changed_context (instance w))
            (state (instance w)) s]))%list.
Proof.
  destruct w as [i tr]. unfold update_messenger_state. run_cmd.
  destruct (AMQP_MESSENGER_STATE_eqb s (state i)) eqn:E; cbn.
  - rewrite app_nil_r. reflexivity.
  - destruct (is_null (on_state_changed_callback i)); cbn; rewrite ?app_nil_r; reflexivity.
Qed.

Lemma same_but_links_refl (i : AMQP_MESSENGER_INSTANCE) : same_but_links i i.
Proof. repeat split. Qed.

Lemma same_but_links_trans (i j k : AMQP_MESSENGER_INSTANCE) :
  same_but_links i j -> same_but_links j k -> same_but_links i k.
Proof.
  unfold same_but_links. intros (a1 & a2 & a3 & a4 & a5 & a6 & a7) (b1 & b2 & b3 & b4 & b5 & b6 & b7).
  repeat split; congruence.
Qed.

Lemma destroy_message_sender_frame (w : World) :
  let i' := instance (exec destroy_message_sender w) in
  same_but_links (instance w) i'
  /\ sender_link i' = NULL /\ message_sender i' = NULL
  /\ receiver_link i' = receiver_link (instance w)
  /\ message_receiver i' = message_receiver (instance w).
Proof.
  destruct w as [i tr]. unfold destroy_message_sender, same_but_links, is_null. run_cmd.
  destruct (message_sender i =? NULL) eqn:E1; cbn;
    destruct (sender_link i =? NULL) eqn:E2; cbn;
    rewrite ?Z.eqb_eq in *; repeat split; auto.
Qed.

Lemma destroy_message_receiver_frame (w : World) :
  let i' := instance (exec destroy_message_receiver w) in
  same_but_links (instance w) i'
  /\ receiver_link i' = NULL /\ message_receiver i' = NULL
  /\ sender_link i' = sender_link (instance w)
  /\ message_sender i' = message_sender (instance w)
  /\ message_sender_current_state i' = message_sender_current_state (instance w).
Proof.
  destruct w as [i tr]. unfold destroy_message_receiver, same_but_links, is_null. run_cmd.
  destruct (message_receiver i =? NULL) eqn:E1; cbn;
    destruct (receiver_link i =? NULL) eqn:E2; cbn;
    rewrite ?Z.eqb_eq in *; repeat split; auto.
Qed.

Lemma create_message_receiver_frame (o : LINK_OUTCOME) (w : World) :
  let i' := instance (exec (create_message_receiver o) w) in
  same_but_links (instance w) i'
  /\ sender_link i' = sender_link (instance w)
  /\ message_sender i' = message_sender (instance w)
  /\ message_sender_current_state i' = message_sender_current_state (instance w).
Proof.
  destruct w as [i tr]. unfold create_message_receiver, same_but_links. run_cmd.
  break_all; repeat split; reflexivity.
Qed.

Lemma create_message_sender_frame (o : LINK_OUTCOME) (w : World) :
  let i' := instance (exec (create_message_sender o) w) in
  same_but_links (instance w) i'
  /\ receiver_link i' = receiver_link (instance w)
  /\ message_receiver i' = message_receiver (instance w).
Proof.
  destruct w as [i tr]. unfold create_message_sender, same_but_links. run_cmd.
  break_all; repeat split; reflexivity.
Qed.

Lemma on_message_processing_completed_callback_instance
  (msg reason : Z) (result : MESSAGE_QUEUE_RESULT)
  (context : option MESSAGE_SEND_CONTEXT) (w : World) :
  exists n,
    instance (exec (on_message_processing_completed_callback msg result reason context) w)
    = set_send_error_count n (instance w).
Proof.
  destruct w as [i tr]. unfold on_message_processing_completed_callback. run_cmd.
  destruct context as [ctx|]; cbn.
  - break_all;
      solve [ exists (send_error_count i); destruct i; reflexivity
            | eexists; reflexivity ].
  - exists (send_error_count i). destruct i; reflexivity.
Qed.

Lemma set_send_error_count_same (i : AMQP_MESSENGER_INSTANCE) :
  set_send_error_count (send_error_count i) i = i.
Proof. destruct i; reflexivity. Qed.

Lemma run_token_instance (on_token : option COMPLETION) (w : World) :
  exists n, instance (exec (run_token on_token) w) = set_send_error_count n (instance w).
Proof.
  destruct on_token as [c|].
  - apply on_message_processing_completed_callback_instance.
  - exists (send_error_count (instance w)). symmetry. apply set_send_error_count_same.
Qed.

Lemma on_process_message_callback_instance
  (q msg token : Z) (context : option MESSAGE_SEND_CONTEXT) (rc : Z)
  (on_token : option COMPLETION) (w : World) :
  exists n,
    instance (exec (on_process_message_callback q msg token context rc on_token) w)
    = set_send_error_count n (instance w).
Proof.
  assert (Hsame : exists n, instance w = set_send_error_count n (instance w)).
  { exists (send_error_count (instance w)). symmetry. apply set_send_error_count_same. }
  unfold on_process_message_callback.
  destruct context as [message_context|]; [|exact Hsame].
  destruct (is_null q || is_null msg || is_null token); [exact Hsame|].
  rewrite !exec_bind.
  change (eval get w) with (instance w). change (exec get w) with w.
  rewrite exec_ret, exec_emit. cbn [instance].
  destruct (negb (rc =? 0)); unfold when.
  - rewrite exec_bind.
    apply (run_token_instance on_token
             (exec (emit (call_process_message_completed q msg MESSAGE_QUEUE_ERROR))
                (exec (emit (call_messagesender_send (message_sender (instance w)) msg)) w))).
  - exact Hsame.
Qed.

Lemma on_send_complete_callback_instance
  (context : option MESSAGE_SEND_CONTEXT) (send_result : MESSAGE_SEND_RESULT)
  (on_token : option COMPLETION) (w : World) :
  exists n,
    instance (exec (on_send_complete_callback context send_result on_token) w)
    = set_send_error_count n (instance w).
Proof.
  unfold on_send_complete_callback. destruct context as [msg_ctx|].
  - rewrite exec_bind. change (eval get w) with (instance w). change (exec get w) with w.
    rewrite exec_bind.
    match goal with |- context [exec (run_token _) ?x] =>
      apply (run_token_instance on_token x) end.
  - exists (send_error_count (instance w)). symmetry. apply set_send_error_count_same.
Qed.

Lemma run_queue_callback_instance (c : QUEUE_CALLBACK) (w : World) :
  exists n, instance (exec (run_queue_callback c) w) = set_send_error_count n (instance w).
Proof.
  destruct c as [msg token context rc on_token | c].
  - unfold run_queue_callback. rewrite exec_bind.
    change (eval get w) with (instance w). change (exec get w) with w.
    rewrite exec_bind, exec_skip.
    apply on_process_message_callback_instance.
  - apply on_message_processing_completed_callback_instance.
Qed.

Lemma run_queue_callbacks_instance (cs : list QUEUE_CALLBACK) (w : World) :
  exists n, instance (exec (run_queue_callbacks cs) w) = set_send_error_count n (instance w).
Proof.
  revert w. induction cs as [|c cs IH]; intros w.
  - exists (send_error_count (instance w)). destruct w as [i tr]. destruct i; reflexivity.
  - cbn [run_queue_callbacks].
    destruct (run_queue_callback_instance c w) as [n1 H1].
    unfold exec, bind in *.
    destruct (run_queue_callback c w) as [u w1]. cbn in H1.
    destruct (IH w1) as [n2 H2].
    exists n2. rewrite H2, H1. reflexivity.
Qed.

(** [process_state_changes] writes the state and nothing else. *)
Lemma process_state_changes_instance (f : Z -> Z -> Z * bool) (w : World) :
  instance (exec (process_state_changes f) w)
  = set_state (state (instance (exec (process_state_changes f) w))) (instance w).
Proof.
  assert (G : forall s, instance (exec (update_messenger_state s) w)
                        = set_state (state (instance (exec (update_messenger_state s) w)))
                            (instance w)).
  { intros s. rewrite update_messenger_state_instance. reflexivity. }
  assert (K : instance (exec skip w) = set_state (state (instance (exec skip w))) (instance w)).
  { destruct w as [i tr]. cbn. symmetry. apply set_state_same. }
  unfold process_state_changes. rewrite exec_bind.
  change (eval get w) with (instance w). change (exec get w) with w.
  repeat match goal with
         | |- context [if ?b then _ else _] => destruct b
         | |- context [let (_, _) := ?x in _] => destruct x
         end; first [apply G | apply K].
Qed.

Lemma process_state_changes_started (f : Z -> Z -> Z * bool) (w : World) :
  state (instance w) = AMQP_MESSENGER_STATE_STARTED ->
  state (instance (exec (process_state_changes f) w)) = AMQP_MESSENGER_STATE_STARTED
  \/ state (instance (exec (process_state_changes f) w)) = AMQP_MESSENGER_STATE_ERROR.
Proof.
  intros Hs. unfold process_state_changes. rewrite exec_bind.
  change (eval get w) with (instance w). change (exec get w) with w. rewrite Hs. cbn.
  repeat match goal with
         | |- context [if ?b then _ else _] => destruct b
         | |- context [let (_, _) := ?x in _] => destruct x
         end;
    rewrite ?update_messenger_state_instance; cbn; auto.
Qed.

Lemma is_null_false (p : Z) : p <> NULL -> is_null p = false.
Proof. intros H. apply Z.eqb_neq. exact H. Qed.

Lemma is_null_true (p : Z) : is_null p = true <-> p = NULL.
Proof. apply Z.eqb_eq. Qed.

(** The part of a tick that runs when the messenger is (still) Started after
    the link states have been examined. *)
Lemma do_work_started_tail (h : Z) (t : TICK) (w : World) :
  h <> NULL ->
  state (instance (exec (process_state_changes (is_timeout_reached t)) w))
    = AMQP_MESSENGER_STATE_STARTED ->
  exists n,
    let i' := instance (exec (amqp_messenger_do_work h t) w) in
    send_error_count i' = n
    /\ max_send_error_count i' = max_send_error_count (instance w)
    /\ state i' = (if max_send_error_count (instance w) <=? n
                   then AMQP_MESSENGER_STATE_ERROR else AMQP_MESSENGER_STATE_STARTED).
Proof.
  intros Hh H1.
  unfold amqp_messenger_do_work. rewrite (is_null_false h Hh).
  rewrite exec_bind.
  pose proof (process_state_changes_instance (is_timeout_reached t) w) as Hi1.
  set (w1 := exec (process_state_changes (is_timeout_reached t)) w) in *.
  rewrite exec_bind. change (eval get w1) with (instance w1). change (exec get w1) with w1.
  rewrite H1. cbn [AMQP_MESSENGER_STATE_eqb].
  rewrite !exec_bind.
  set (wa := exec (if receive_messages (instance w1) && is_null (message_receiver (instance w1))
                   then result <- create_message_receiver (receiver_outcome t) ;;
                        ret (negb (result =? RESULT_OK))
                   else ret false) w1).
  assert (Ha : same_but_links (instance w1) (instance wa)).
  { subst wa. destruct (receive_messages (instance w1) && is_null (message_receiver (instance w1))).
    - rewrite exec_bind, exec_ret. apply create_message_receiver_frame.
    - rewrite exec_ret. apply same_but_links_refl. }
  match goal with
  | |- context [exec (if ?b then skip else ?c) wa] =>
      set (wb := exec (if b then skip else c) wa)
  end.
  assert (Hb : same_but_links (instance wa) (instance wb)).
  { subst wb.
    match goal with |- context [if ?b then _ else _] => destruct b end.
    - apply same_but_links_refl.
    - rewrite exec_bind. change (exec get wa) with wa. change (eval get wa) with (instance wa).
      destruct (negb (receive_messages (instance wa)) && negb (is_null (message_receiver (instance wa)))).
      + apply destroy_message_receiver_frame.
      + apply same_but_links_refl. }
  pose proof (same_but_links_trans _ _ _ Ha Hb) as Hab.
  match goal with
  | |- context [exec (run_queue_callbacks ?cs) ?x] =>
      destruct (run_queue_callbacks_instance cs x) as [n Hn];
      set (wd := exec (run_queue_callbacks cs) x) in *
  end.
  rewrite exec_emit in Hn. cbn [instance] in Hn.
  change (exec get wd) with wd. change (eval get wd) with (instance wd).
  destruct Hab as (Hst & _ & Hmax & _).
  assert (Hmax1 : max_send_error_count (instance w1) = max_send_error_count (instance w)).
  { rewrite Hi1. reflexivity. }
  exists n. cbn zeta.
  assert (Hcd : send_error_count (instance wd) = n) by (rewrite Hn; reflexivity).
  assert (Hmd : max_send_error_count (instance wd) = max_send_error_count (instance w)).
  { rewrite Hn. cbn. congruence. }
  assert (Hsd : state (instance wd) = AMQP_MESSENGER_STATE_STARTED).
  { rewrite Hn. cbn. congruence. }
  rewrite Hcd, Hmd.
  destruct (max_send_error_count (instance w) <=? n) eqn:E; unfold when.
  - rewrite update_messenger_state_instance. cbn. auto.
  - rewrite exec_skip. auto.
Qed.

Lemma do_work_started_to_error (h : Z) (t : TICK) (w : World) :
  h <> NULL ->
  state (instance (exec (process_state_changes (is_timeout_reached t)) w))
    = AMQP_MESSENGER_STATE_ERROR ->
  instance (exec (amqp_messenger_do_work h t) w)
  = instance (exec (process_state_changes (is_timeout_reached t)) w).
Proof.
  intros Hh H1.
  unfold amqp_messenger_do_work. rewrite (is_null_false h Hh).
  rewrite exec_bind.
  set (w1 := exec (process_state_changes (is_timeout_reached t)) w) in *.
  rewrite exec_bind. change (eval get w1) with (instance w1). change (exec get w1) with w1.
  rewrite H1. reflexivity.
Qed.

(** ** The send-error threshold *)

(** C2 -- After a tick taken in state Started, the messenger is Started only
    if [send_error_count] is below [max_send_error_count]; reaching the
    maximum (10 by default) during the tick puts it in Error, and below the
    maximum (9 errors) a messenger whose links passed the state examination
    stays Started. *)
Theorem do_work_started_error_threshold :
  forall (h : Z) (t : TICK) (w : World),
    h <> NULL ->
    state (instance w) = AMQP_MESSENGER_STATE_STARTED ->
    let examined := instance (exec (process_state_changes (is_timeout_reached t)) w) in
    let i' := instance (exec (amqp_messenger_do_work h t) w) in
    (state i' = AMQP_MESSENGER_STATE_STARTED ->
       send_error_count i' < max_send_error_count i')
    /\ (max_send_error_count i' <= send_error_count i' ->
       state i' = AMQP_MESSENGER_STATE_ERROR)
    /\ (state examined = AMQP_MESSENGER_STATE_STARTED ->
        send_error_count i' < max_send_error_count i' ->
       state i' = AMQP_MESSENGER_STATE_STARTED)
    /\ (max_send_error_count (instance w) = DEFAULT_MAX_SEND_ERROR_COUNT ->
        (send_error_count i' = 10 -> state i' = AMQP_MESSENGER_STATE_ERROR)
        /\ (state examined = AMQP_MESSENGER_STATE_STARTED ->
            send_error_count i' = 9 -> state i' = AMQP_MESSENGER_STATE_STARTED)).
Proof.
  intros h t w Hh Hs examined i'.
  assert (Hcases :
    (state i' = AMQP_MESSENGER_STATE_ERROR
     /\ state examined = AMQP_MESSENGER_STATE_ERROR
     /\ max_send_error_count i' = max_send_error_count (instance w))
    \/ (state examined = AMQP_MESSENGER_STATE_STARTED
        /\ max_send_error_count i' = max_send_error_count (instance w)
        /\ state i' = (if max_send_error_count i' <=? send_error_count i'
                       then AMQP_MESSENGER_STATE_ERROR else AMQP_MESSENGER_STATE_STARTED))).
  { destruct (process_state_changes_started (is_timeout_reached t) w Hs) as [H1 | H1].
    - right. destruct (do_work_started_tail h t w Hh H1) as (n & Hc & Hm & Hst).
      fold i' in Hc, Hm, Hst. subst n. rewrite Hm. auto.
    - left. subst i'. rewrite (do_work_started_to_error h t w Hh H1).
      fold examined. split; [exact H1|]. split; [exact H1|].
      subst examined. rewrite process_state_changes_instance. reflexivity. }
  destruct Hcases as [(He & Hex & Hm) | (Hex & Hm & Hst)].
  - repeat split; intros; try congruence.
  - destruct (max_send_error_count i' <=? send_error_count i') eqn:E.
    + apply Z.leb_le in E. rewrite Hm in *. unfold DEFAULT_MAX_SEND_ERROR_COUNT.
      repeat split; intros; try congruence; try lia.
    + apply Z.leb_gt in E. rewrite Hm in *. unfold DEFAULT_MAX_SEND_ERROR_COUNT.
      repeat split; intros; try congruence; try lia.
Qed.

Lemma do_work_started_error_threshold_witness :
  scenario_handle <> NULL
  /\ state (instance (started_world 9)) = AMQP_MESSENGER_STATE_STARTED
  /\ send_error_count
       (instance (exec (amqp_messenger_do_work scenario_handle tick_with_one_failed_send)
                    (started_world 9))) = 10
  /\ state
       (instance (exec (amqp_messenger_do_work scenario_handle tick_with_one_failed_send)
                    (started_world 9))) = AMQP_MESSENGER_STATE_ERROR
  /\ send_error_count
       (instance (exec (amqp_messenger_do_work scenario_handle tick_with_one_failed_send)
                    (started_world 8))) = 9
  /\ state
       (instance (exec (amqp_messenger_do_work scenario_handle tick_with_one_failed_send)
                    (started_world 8))) = AMQP_MESSENGER_STATE_STARTED.
Proof.
  assert (Hh : scenario_handle <> NULL) by discriminate.
  assert (Hs : forall n, state (instance (started_world n)) = AMQP_MESSENGER_STATE_STARTED)
    by reflexivity.
  split; [exact Hh|]. split; [apply Hs|].
  assert (H10 : send_error_count
       (instance (exec (amqp_messenger_do_work scenario_handle tick_with_one_failed_send)
                    (started_world 9))) = 10) by (vm_compute; reflexivity).
  assert (H9 : send_error_count
       (instance (exec (amqp_messenger_do_work scenario_handle tick_with_one_failed_send)
                    (started_world 8))) = 9) by (vm_compute; reflexivity).
  split; [exact H10|].
  split.
  - destruct (do_work_started_error_threshold scenario_handle tick_with_one_failed_send
                (started_world 9) Hh (Hs 9)) as (_ & _ & _ & Hd).
    apply Hd; [reflexivity | exact H10].
  - split; [exact H9|].
    destruct (do_work_started_error_threshold scenario_handle tick_with_one_failed_send
                (started_world 8) Hh (Hs 8)) as (_ & _ & _ & Hd).
    apply Hd; [reflexivity | vm_compute; reflexivity | exact H9].
Defined.

(** ** Stopping *)

Lemma AMQP_MESSENGER_STATE_eqb_refl (a : AMQP_MESSENGER_STATE) :
  AMQP_MESSENGER_STATE_eqb a a = true.
Proof. destruct a; reflexivity. Qed.

Lemma AMQP_MESSENGER_STATE_eqb_neq (a b : AMQP_MESSENGER_STATE) :
  AMQP_MESSENGER_STATE_eqb a b = false <-> a <> b.
Proof. destruct a, b; cbn; split; intros H; congruence. Qed.

Lemma destroy_message_sender_trace (w : World) :
  trace (exec destroy_message_sender w) = (trace w ++ sender_teardown (instance w))%list.
Proof.
  destruct w as [i tr]. unfold destroy_message_sender, sender_teardown. run_cmd.
  destruct (is_null (message_sender i)); cbn;
    destruct (is_null (sender_link i)); cbn;
    rewrite <- ?app_assoc, ?app_nil_r; reflexivity.
Qed.

Lemma destroy_message_receiver_trace (w : World) :
  trace (exec destroy_message_receiver w) = (trace w ++ receiver_teardown (instance w))%list.
Proof.
  destruct w as [i tr]. unfold destroy_message_receiver, receiver_teardown. run_cmd.
  destruct (is_null (message_receiver i)); cbn;
    destruct (is_null (receiver_link i)); cbn;
    rewrite <- ?app_assoc, ?app_nil_r; reflexivity.
Qed.

(** What [amqp_messenger_stop] does, for a handle that is not null. *)
Lemma amqp_messenger_stop_run :
  forall (h move_all_back_to_pending : Z) (w : World),
    h <> NULL ->
    let i := instance w in
    let result := eval (amqp_messenger_stop h move_all_back_to_pending) w in
    let w' := exec (amqp_messenger_stop h move_all_back_to_pending) w in
    (state i = AMQP_MESSENGER_STATE_STOPPED -> result <> 0 /\ w' = w)
    /\ (state i <> AMQP_MESSENGER_STATE_STOPPED ->
        links_absent (instance w')
        /\ trace w' =
           (trace w
            ++ observer_calls i (state i) AMQP_MESSENGER_STATE_STOPPING
            ++ sender_teardown i
            ++ receiver_teardown i
            ++ [call_message_queue_move_all_back_to_pending (send_queue i)]
            ++ observer_calls i AMQP_MESSENGER_STATE_STOPPING (state (instance w')))%list
        /\ (move_all_back_to_pending <> RESULT_OK ->
            state (instance w') = AMQP_MESSENGER_STATE_ERROR /\ result <> 0)
        /\ (move_all_back_to_pending = RESULT_OK ->
            state (instance w') = AMQP_MESSENGER_STATE_STOPPED /\ result = 0)).
Proof.
  intros h mv w Hh. cbn zeta.
  unfold amqp_messenger_stop. rewrite (is_null_false h Hh).
  rewrite exec_bind, eval_bind.
  change (eval get w) with (instance w). change (exec get w) with w.
  split.
  - intros Hs. rewrite Hs. cbn. split; [discriminate | reflexivity].
  - intros Hs. apply AMQP_MESSENGER_STATE_eqb_neq in Hs. rewrite Hs.
    rewrite !exec_bind, !eval_bind.
    set (w1 := exec (update_messenger_state AMQP_MESSENGER_STATE_STOPPING) w).
    set (w2 := exec destroy_message_sender w1).
    set (w3 := exec destroy_message_receiver w2).
    set (w4 := exec (emit (call_message_queue_move_all_back_to_pending
                             (send_queue (instance w)))) w3).
    assert (H1 : instance w1 = set_state AMQP_MESSENGER_STATE_STOPPING (instance w))
      by apply update_messenger_state_instance.
    assert (T1 : trace w1 = (trace w ++ observer_calls (instance w) (state (instance w))
                                          AMQP_MESSENGER_STATE_STOPPING)%list)
      by apply update_messenger_state_trace.
    destruct (destroy_message_sender_frame w1) as (F2 & S2a & S2b & S2c & S2d).
    fold w2 in F2, S2a, S2b, S2c, S2d.
    assert (T2 : trace w2 = (trace w1 ++ sender_teardown (instance w))%list).
    { subst w2. rewrite destroy_message_sender_trace, H1. reflexivity. }
    destruct (destroy_message_receiver_frame w2) as (F3 & S3a & S3b & S3c & S3d & _).
    fold w3 in F3, S3a, S3b, S3c, S3d.
    assert (T3 : trace w3 = (trace w2 ++ receiver_teardown (instance w))%list).
    { subst w3. rewrite destroy_message_receiver_trace.
      unfold receiver_teardown. rewrite S2c, S2d, H1. reflexivity. }
    assert (H4 : instance w4 = instance w3) by reflexivity.
    assert (T4 : trace w4 = (trace w3 ++ [call_message_queue_move_all_back_to_pending
                                            (send_queue (instance w))])%list) by reflexivity.
    pose proof (same_but_links_trans _ _ _ F2 F3) as F13.
    destruct F13 as (Fst & _ & _ & _ & _ & Fcb & Fctx).
    rewrite H1 in Fst, Fcb, Fctx. cbn in Fst, Fcb, Fctx.
    assert (Habs : forall s, links_absent (set_state s (instance w4))).
    { intros s. rewrite H4. unfold links_absent. cbn. rewrite S3a, S3b, S3c, S3d, S2a, S2b.
      repeat split. }
    assert (Htr : forall s,
      trace (exec (update_messenger_state s) w4) =
      (trace w
       ++ observer_calls (instance w) (state (instance w)) AMQP_MESSENGER_STATE_STOPPING
       ++ sender_teardown (instance w)
       ++ receiver_teardown (instance w)
       ++ [call_message_queue_move_all_back_to_pending (send_queue (instance w))]
       ++ observer_calls (instance w) AMQP_MESSENGER_STATE_STOPPING s)%list).
    { intros s. rewrite update_messenger_state_trace, T4, T3, T2, T1, H4, Fst, Fcb, Fctx.
      unfold observer_calls. rewrite <- !app_assoc. reflexivity. }
    destruct (mv =? RESULT_OK) eqn:Emv; cbn [negb];
      rewrite !exec_bind, ?eval_bind, ?exec_ret, ?eval_ret;
      rewrite update_messenger_state_instance.
    + apply Z.eqb_eq in Emv.
      split; [apply Habs|]. split; [apply Htr|].
      split; [intros; contradiction | intros _; split; reflexivity].
    + apply Z.eqb_neq in Emv.
      split; [apply Habs|]. split; [apply Htr|].
      split; [intros _; split; [reflexivity | discriminate] | intros; contradiction].
Qed.

(** C3 -- [amqp_messenger_stop] on a Stopped messenger fails and does nothing.
    Otherwise it tears down the message sender and the message receiver, then
    asks the queue to move the in-flight items back to pending, and ends in
    Error with a non-zero result if that request fails, in Stopped with
    result 0 if it succeeds; either way no link object is left. *)
Theorem stop_outcome :
  forall (h move_all_back_to_pending : Z) (w : World),
    h <> NULL ->
    let i := instance w in
    let result := eval (amqp_messenger_stop h move_all_back_to_pending) w in
    let w' := exec (amqp_messenger_stop h move_all_back_to_pending) w in
    (state i = AMQP_MESSENGER_STATE_STOPPED -> result <> 0 /\ w' = w)
    /\ (state i <> AMQP_MESSENGER_STATE_STOPPED ->
        links_absent (instance w')
        /\ trace w' =
           (trace w
            ++ observer_calls i (state i) AMQP_MESSENGER_STATE_STOPPING
            ++ sender_teardown i
            ++ receiver_teardown i
            ++ [call_message_queue_move_all_back_to_pending (send_queue i)]
            ++ observer_calls i AMQP_MESSENGER_STATE_STOPPING (state (instance w')))%list
        /\ (move_all_back_to_pending <> RESULT_OK ->
            state (instance w') = AMQP_MESSENGER_STATE_ERROR /\ result <> 0)
        /\ (move_all_back_to_pending = RESULT_OK ->
            state (instance w') = AMQP_MESSENGER_STATE_STOPPED /\ result = 0)).
Proof. exact amqp_messenger_stop_run. Qed.

Lemma stop_outcome_witness :
  scenario_handle <> NULL
  /\ state (instance (started_world 0)) <> AMQP_MESSENGER_STATE_STOPPED
  /\ eval (amqp_messenger_stop scenario_handle 0) (started_world 0) = 0
  /\ state (instance (exec (amqp_messenger_stop scenario_handle 0) (started_world 0)))
     = AMQP_MESSENGER_STATE_STOPPED
  /\ trace (exec (amqp_messenger_stop scenario_handle 0) (started_world 0))
     = [state_changed_callback 4100 AMQP_MESSENGER_STATE_STARTED AMQP_MESSENGER_STATE_STOPPING;
        call_messagesender_destroy 16388;
        call_link_destroy 16384;
        call_message_queue_move_all_back_to_pending 8192;
        state_changed_callback 4100 AMQP_MESSENGER_STATE_STOPPING AMQP_MESSENGER_STATE_STOPPED].
Proof.
  assert (Hh : scenario_handle <> NULL) by discriminate.
  assert (Hs : state (instance (started_world 0)) <> AMQP_MESSENGER_STATE_STOPPED)
    by discriminate.
  destruct (stop_outcome scenario_handle 0 (started_world 0) Hh) as [_ Hrun].
  destruct (Hrun Hs) as (_ & Htrace & _ & Hok).
  destruct (Hok eq_refl) as [Hstate Hresult].
  split; [exact Hh|]. split; [exact Hs|]. split; [exact Hresult|]. split; [exact Hstate|].
  rewrite Htrace, Hstate. reflexivity.
Defined.

(** ** Starting *)

Lemma process_state_changes_starting (f : Z -> Z -> Z * bool) (w : World) :
  state (instance w) = AMQP_MESSENGER_STATE_STARTING ->
  let i := instance w in
  let w1 := exec (process_state_changes f) w in
  match message_sender_current_state i with
  | MESSAGE_SENDER_STATE_OPEN =>
      instance w1 = set_state AMQP_MESSENGER_STATE_STARTED i
  | MESSAGE_SENDER_STATE_OPENING =>
      if negb (fst (f (last_message_sender_state_change_time i)
                      MAX_MESSAGE_SENDER_STATE_CHANGE_TIMEOUT_SECS) =? RESULT_OK)
         || snd (f (last_message_sender_state_change_time i)
                   MAX_MESSAGE_SENDER_STATE_CHANGE_TIMEOUT_SECS)
      then instance w1 = set_state AMQP_MESSENGER_STATE_ERROR i
      else w1 = w
  | MESSAGE_SENDER_STATE_IDLE =>
      if is_null (message_sender i) then w1 = w
      else instance w1 = set_state AMQP_MESSENGER_STATE_ERROR i
  | _ => instance w1 = set_state AMQP_MESSENGER_STATE_ERROR i
  end.
Proof.
  intros Hs. cbn zeta. unfold process_state_changes. rewrite exec_bind.
  change (eval get w) with (instance w). change (exec get w) with w. rewrite Hs.
  cbn [AMQP_MESSENGER_STATE_eqb].
  destruct (message_sender_current_state (instance w)); cbn [MESSAGE_SENDER_STATE_eqb orb andb negb].
  - destruct (is_null (message_sender (instance w))); cbn [negb].
    + reflexivity.
    + apply update_messenger_state_instance.
  - destruct (f (last_message_sender_state_change_time (instance w))
                MAX_MESSAGE_SENDER_STATE_CHANGE_TIMEOUT_SECS) as [check timed_out].
    cbn [fst snd]. destruct (check =? RESULT_OK); cbn [negb orb].
    + destruct timed_out; [apply update_messenger_state_instance | reflexivity].
    + apply update_messenger_state_instance.
  - apply update_messenger_state_instance.
  - apply update_messenger_state_instance.
  - apply update_messenger_state_instance.
Qed.

(** A tick that is still Starting after the examination of the link states:
    the sender is created if absent, and a failure is an Error. *)
Lemma do_work_starting_tail (h : Z) (t : TICK) (w : World) :
  h <> NULL ->
  state (instance w) = AMQP_MESSENGER_STATE_STARTING ->
  exec (process_state_changes (is_timeout_reached t)) w = w ->
  state (instance (exec (amqp_messenger_do_work h t) w)) =
  if is_null (message_sender (instance w))
     && negb (eval (create_message_sender (sender_outcome t)) w =? RESULT_OK)
  then AMQP_MESSENGER_STATE_ERROR else AMQP_MESSENGER_STATE_STARTING.
Proof.
  intros Hh Hs Hw1.
  unfold amqp_messenger_do_work. rewrite (is_null_false h Hh).
  rewrite exec_bind, Hw1. rewrite exec_bind.
  change (eval get w) with (instance w). change (exec get w) with w.
  rewrite Hs. cbn [AMQP_MESSENGER_STATE_eqb].
  destruct (is_null (message_sender (instance w))); cbn [andb].
  - rewrite exec_bind.
    destruct (create_message_sender_frame (sender_outcome t) w) as ((Hst & _) & _).
    destruct (eval (create_message_sender (sender_outcome t)) w =? RESULT_OK);
      cbn [negb]; unfold when.
    + rewrite exec_skip, Hst. exact Hs.
    + rewrite update_messenger_state_instance. reflexivity.
  - rewrite exec_skip. exact Hs.
Qed.

(** C4 (as amended) -- For a tick taken in state Starting:
    the examination of the link states ends in Error exactly when the sender
    reports Error or Closing, or Idle while the sender object exists, or
    Opening while the time-out check fails or reports a time-out; the tick as
    a whole ends in Error exactly when the examination does, or the messenger
    is still Starting, has no sender and the creation of the sender fails, or
    the sender is Open and the send-error count has reached its maximum.
    With a clock helper that succeeds and reports a time-out exactly when
    more than the number of seconds it is given have passed since the time
    stamp it is given, the number the code gives it makes the boundary: the
    tick ends in Error exactly when the sender reports Error or Closing, or
    Idle while the sender object exists, or has been Opening for more than
    300 s since the last observed change, or there is no sender object and
    its creation fails, or the sender is Open and the send-error count has
    reached its maximum; a messenger whose sender exists and is Opening is
    still Starting after the tick up to 300 s, so at 299 s, and in Error past
    300 s. *)
Theorem starting_tick_error_iff :
  forall (h : Z) (t : TICK) (w : World),
    h <> NULL ->
    state (instance w) = AMQP_MESSENGER_STATE_STARTING ->
    let i := instance w in
    let reported := message_sender_current_state i in
    let check :=
      is_timeout_reached t (last_message_sender_state_change_time i)
        MAX_MESSAGE_SENDER_STATE_CHANGE_TIMEOUT_SECS in
    let examined := state (instance (exec (process_state_changes (is_timeout_reached t)) w)) in
    let i' := instance (exec (amqp_messenger_do_work h t) w) in
    (examined = AMQP_MESSENGER_STATE_ERROR <->
       reported = MESSAGE_SENDER_STATE_ERROR
       \/ reported = MESSAGE_SENDER_STATE_CLOSING
       \/ (reported = MESSAGE_SENDER_STATE_IDLE /\ message_sender i <> NULL)
       \/ (reported = MESSAGE_SENDER_STATE_OPENING
           /\ (fst check <> RESULT_OK \/ snd check = true)))
    /\ (state i' = AMQP_MESSENGER_STATE_ERROR <->
       examined = AMQP_MESSENGER_STATE_ERROR
       \/ (examined = AMQP_MESSENGER_STATE_STARTING
           /\ message_sender i = NULL
           /\ eval (create_message_sender (sender_outcome t)) w <> RESULT_OK)
       \/ (examined = AMQP_MESSENGER_STATE_STARTED
           /\ max_send_error_count i' <= send_error_count i'))
    /\ (forall now : Z,
          (forall start_time timeout_in_secs : Z,
             is_timeout_reached t start_time timeout_in_secs
             = is_timeout_reached_at now start_time timeout_in_secs) ->
          let elapsed := now - last_message_sender_state_change_time i in
          let creation_fails :=
            message_sender i = NULL
            /\ eval (create_message_sender (sender_outcome t)) w <> RESULT_OK in
          (state i' = AMQP_MESSENGER_STATE_ERROR <->
             reported = MESSAGE_SENDER_STATE_ERROR
             \/ reported = MESSAGE_SENDER_STATE_CLOSING
             \/ (reported = MESSAGE_SENDER_STATE_IDLE /\ message_sender i <> NULL)
             \/ (reported = MESSAGE_SENDER_STATE_OPENING /\ 300 < elapsed)
             \/ (reported = MESSAGE_SENDER_STATE_IDLE /\ creation_fails)
             \/ (reported = MESSAGE_SENDER_STATE_OPENING /\ elapsed <= 300 /\ creation_fails)
             \/ (reported = MESSAGE_SENDER_STATE_OPEN
                 /\ max_send_error_count i' <= send_error_count i'))
          /\ (reported = MESSAGE_SENDER_STATE_OPENING ->
              message_sender i <> NULL ->
              (state i' = AMQP_MESSENGER_STATE_ERROR <-> 300 < elapsed)
              /\ (state i' = AMQP_MESSENGER_STATE_STARTING <-> elapsed <= 300))).
Proof.
  intros h t w Hh Hs. cbn zeta.
  pose proof (process_state_changes_starting (is_timeout_reached t) w Hs) as Hex.
  cbn zeta in Hex.
  set (w1 := exec (process_state_changes (is_timeout_reached t)) w) in *.
  set (i := instance w) in *.
  set (check := is_timeout_reached t (last_message_sender_state_change_time i)
                  MAX_MESSAGE_SENDER_STATE_CHANGE_TIMEOUT_SECS) in *.
  (* The three ways the examination can end. *)
  assert (Hcases :
    (state (instance w1) = AMQP_MESSENGER_STATE_ERROR
     /\ (message_sender_current_state i = MESSAGE_SENDER_STATE_ERROR
         \/ message_sender_current_state i = MESSAGE_SENDER_STATE_CLOSING
         \/ (message_sender_current_state i = MESSAGE_SENDER_STATE_IDLE
             /\ message_sender i <> NULL)
         \/ (message_sender_current_state i = MESSAGE_SENDER_STATE_OPENING
             /\ (fst check <> RESULT_OK \/ snd check = true))))
    \/ (w1 = w
        /\ ((message_sender_current_state i = MESSAGE_SENDER_STATE_IDLE
             /\ message_sender i = NULL)
            \/ (message_sender_current_state i = MESSAGE_SENDER_STATE_OPENING
                /\ fst check = RESULT_OK /\ snd check = false)))
    \/ (state (instance w1) = AMQP_MESSENGER_STATE_STARTED
        /\ message_sender_current_state i = MESSAGE_SENDER_STATE_OPEN)).
  { destruct (message_sender_current_state i) eqn:Ecur.
    - destruct (is_null (message_sender i)) eqn:En.
      + right; left. apply is_null_true in En. auto.
      + left. rewrite Hex. split; [reflexivity|]. right; right; left.
        split; [reflexivity|]. intros Hn. apply is_null_true in Hn. congruence.
    - destruct (fst check =? RESULT_OK) eqn:Ec; cbn [negb orb] in Hex.
      + destruct (snd check) eqn:Et.
        * left. rewrite Hex. split; [reflexivity|]. right; right; right. auto.
        * right; left. apply Z.eqb_eq in Ec. auto.
      + left. rewrite Hex. split; [reflexivity|]. right; right; right.
        apply Z.eqb_neq in Ec. auto.
    - right; right. rewrite Hex. auto.
    - left. rewrite Hex. auto.
    - left. rewrite Hex. auto. }
  assert (Hfinal_error :
            state (instance w1) = AMQP_MESSENGER_STATE_ERROR ->
            state (instance (exec (amqp_messenger_do_work h t) w))
            = AMQP_MESSENGER_STATE_ERROR).
  { intros He. rewrite (do_work_started_to_error h t w Hh He). exact He. }
  split; [|split].
  - (* the examination *)
    destruct Hcases as [(He & Hwhy) | [(Hw1 & Hwhy) | (Hst & Hopen)]].
    + split; auto.
    + rewrite Hw1. fold i. split.
      * intros He. congruence.
      * intros [H | [H | [(H & Hn) | (H & Hc)]]];
          destruct Hwhy as [(Hi & Hnull) | (Ho & Hok & Hnt)]; try congruence.
        destruct Hc; congruence.
    + split.
      * intros He. congruence.
      * intros [H | [H | [(H & Hn) | (H & Hc)]]]; congruence.
  - (* the whole tick *)
    destruct Hcases as [(He & Hwhy) | [(Hw1 & Hwhy) | (Hst & Hopen)]].
    + split; auto.
    + rewrite (do_work_starting_tail h t w Hh Hs Hw1). rewrite Hw1. fold i.
      destruct (is_null (message_sender i)) eqn:En; cbn [andb].
      * destruct (eval (create_message_sender (sender_outcome t)) w =? RESULT_OK) eqn:Ec;
          cbn [negb].
        -- split; [discriminate|].
           apply Z.eqb_eq in Ec.
           intros [H | [(_ & _ & H) | (H & _)]]; congruence.
        -- split; [|reflexivity]. intros _. right; left.
           apply Z.eqb_neq in Ec. apply is_null_true in En. auto.
      * split; [discriminate|].
        intros [H | [(_ & H & _) | (H & _)]]; try congruence.
        apply is_null_true in H. congruence.
    + destruct (do_work_started_tail h t w Hh Hst) as (n & Hc & Hm & Hfin).
      cbn zeta in Hc, Hm, Hfin. rewrite Hfin, Hm, Hc.
      destruct (max_send_error_count (instance w) <=? n) eqn:E.
      * apply Z.leb_le in E. split; auto.
      * apply Z.leb_gt in E. split; [discriminate|].
        intros [H | [(H & _) | (_ & H)]]; try congruence. lia.
  - (* the boundary of the time-out *)
    intros now Hclock. cbv zeta.
    assert (Hcheck : check = (RESULT_OK,
                              300 <? now - last_message_sender_state_change_time i)).
    { unfold check. rewrite Hclock. reflexivity. }
    assert (Hok : fst check = RESULT_OK) by (rewrite Hcheck; reflexivity).
    assert (Hlate : snd check = true
                    <-> 300 < now - last_message_sender_state_change_time i).
    { rewrite Hcheck. cbn [snd]. apply Z.ltb_lt. }
    assert (Hearly : snd check = false
                     <-> now - last_message_sender_state_change_time i <= 300).
    { rewrite Hcheck. cbn [snd]. rewrite Z.ltb_ge. reflexivity. }
    assert (Hwhole :
      state (instance (exec (amqp_messenger_do_work h t) w)) = AMQP_MESSENGER_STATE_ERROR <->
      message_sender_current_state i = MESSAGE_SENDER_STATE_ERROR
      \/ message_sender_current_state i = MESSAGE_SENDER_STATE_CLOSING
      \/ (message_sender_current_state i = MESSAGE_SENDER_STATE_IDLE
          /\ message_sender i <> NULL)
      \/ (message_sender_current_state i = MESSAGE_SENDER_STATE_OPENING
          /\ 300 < now - last_message_sender_state_change_time i)
      \/ (message_sender_current_state i = MESSAGE_SENDER_STATE_IDLE
          /\ message_sender i = NULL
          /\ eval (create_message_sender (sender_outcome t)) w <> RESULT_OK)
      \/ (message_sender_current_state i = MESSAGE_SENDER_STATE_OPENING
          /\ now - last_message_sender_state_change_time i <= 300
          /\ message_sender i = NULL
          /\ eval (create_message_sender (sender_outcome t)) w <> RESULT_OK)
      \/ (message_sender_current_state i = MESSAGE_SENDER_STATE_OPEN
          /\ max_send_error_count (instance (exec (amqp_messenger_do_work h t) w))
             <= send_error_count (instance (exec (amqp_messenger_do_work h t) w)))).
    { destruct Hcases as [(He & Hwhy) | [(Hw1 & Hwhy) | (Hst & Hopen)]].
      - split; [intros _ | intros _; apply Hfinal_error; exact He].
        destruct Hwhy as [H | [H | [H | (H & [Hc | Hc])]]]; auto.
        + congruence.
        + right; right; right; left. split; [exact H | apply Hlate; exact Hc].
      - rewrite (do_work_starting_tail h t w Hh Hs Hw1). fold i.
        destruct (is_null (message_sender i)) eqn:En; cbn [andb].
        + apply is_null_true in En.
          destruct (eval (create_message_sender (sender_outcome t)) w =? RESULT_OK) eqn:Ec;
            cbn [negb].
          * apply Z.eqb_eq in Ec. split; [discriminate|].
            destruct Hwhy as [(Hi & _) | (Ho & _ & Hnt)];
              intros [H | [H | [(H & Hn) | [(H & Hl) | [(H & _ & Hf) | [(H & _ & _ & Hf)
                                                                        | (H & _)]]]]]];
              try congruence.
            apply Hlate in Hl. congruence.
          * apply Z.eqb_neq in Ec. split; [intros _ | reflexivity].
            destruct Hwhy as [(Hi & _) | (Ho & _ & Hnt)].
            -- right; right; right; right; left. auto.
            -- right; right; right; right; right; left.
               split; [exact Ho|]. split; [apply Hearly; exact Hnt | auto].
        + split; [discriminate|].
          assert (Hnn : message_sender i <> NULL).
          { intros Hn. apply is_null_true in Hn. congruence. }
          destruct Hwhy as [(Hi & Hnull) | (Ho & _ & Hnt)];
            intros [H | [H | [(H & Hn) | [(H & Hl) | [(H & Hn & _) | [(H & _ & Hn & _)
                                                                      | (H & _)]]]]]];
            try congruence.
          apply Hlate in Hl. congruence.
      - destruct (do_work_started_tail h t w Hh Hst) as (n & Hc & Hm & Hfin).
        cbn zeta in Hc, Hm, Hfin. rewrite Hfin, Hm, Hc.
        destruct (max_send_error_count (instance w) <=? n) eqn:E.
        + apply Z.leb_le in E. split; [intros _ | reflexivity].
          right; right; right; right; right; right. auto.
        + apply Z.leb_gt in E. split; [discriminate|].
          intros [H | [H | [(H & _) | [(H & _) | [(H & _) | [(H & _) | (_ & H)]]]]]];
            try congruence.
          unfold i in H. lia. }
    split.
    + rewrite Hwhole. tauto.
    + intros Hopening Hsender.
      assert (Herr : state (instance (exec (amqp_messenger_do_work h t) w))
                     = AMQP_MESSENGER_STATE_ERROR
                     <-> 300 < now - last_message_sender_state_change_time i).
      { rewrite Hwhole. split.
        - intros [H | [H | [(H & _) | [(_ & H) | [(H & _) | [(_ & _ & H & _) | (H & _)]]]]]];
            try congruence; exact H.
        - intros H. right; right; right; left. auto. }
      split; [exact Herr|].
      split.
      * intros Hst. apply Z.nlt_ge. intros Hgt. apply Herr in Hgt. congruence.
      * intros Hle.
        destruct Hcases as [(He & Hwhy) | [(Hw1 & Hwhy) | (Hst & Hopen)]].
        -- exfalso.
           destruct Hwhy as [H | [H | [(H & _) | (_ & [Hc | Hc])]]]; try congruence.
           apply Hlate in Hc. lia.
        -- rewrite (do_work_starting_tail h t w Hh Hs Hw1). fold i.
           rewrite (is_null_false _ Hsender). reflexivity.
        -- congruence.
Qed.

Lemma starting_tick_error_iff_witness :
  scenario_handle <> NULL
  /\ state (instance opening_world) = AMQP_MESSENGER_STATE_STARTING
  /\ state (instance (exec (amqp_messenger_do_work scenario_handle (tick_at 1299))
                        opening_world)) = AMQP_MESSENGER_STATE_STARTING
  /\ state (instance (exec (amqp_messenger_do_work scenario_handle (tick_at 1300))
                        opening_world)) = AMQP_MESSENGER_STATE_STARTING
  /\ state (instance (exec (amqp_messenger_do_work scenario_handle (tick_at 1301))
                        opening_world)) = AMQP_MESSENGER_STATE_ERROR.
Proof.
  assert (Hh : scenario_handle <> NULL) by discriminate.
  assert (Hs : state (instance opening_world) = AMQP_MESSENGER_STATE_STARTING) by reflexivity.
  assert (Hopening : message_sender_current_state (instance opening_world)
                     = MESSAGE_SENDER_STATE_OPENING) by reflexivity.
  assert (Hsender : message_sender (instance opening_world) <> NULL) by discriminate.
  split; [exact Hh|]. split; [exact Hs|]. split; [|split].
  - destruct (starting_tick_error_iff scenario_handle (tick_at 1299) opening_world Hh Hs)
      as (_ & _ & Hclock).
    destruct (Hclock 1299 (fun _ _ => eq_refl)) as (_ & Hboundary).
    destruct (Hboundary Hopening Hsender) as (_ & Hstill). apply Hstill. cbn. lia.
  - destruct (starting_tick_error_iff scenario_handle (tick_at 1300) opening_world Hh Hs)
      as (_ & _ & Hclock).
    destruct (Hclock 1300 (fun _ _ => eq_refl)) as (_ & Hboundary).
    destruct (Hboundary Hopening Hsender) as (_ & Hstill). apply Hstill. cbn. lia.
  - destruct (starting_tick_error_iff scenario_handle (tick_at 1301) opening_world Hh Hs)
      as (_ & _ & Hclock).
    destruct (Hclock 1301 (fun _ _ => eq_refl)) as (_ & Hboundary).
    destruct (Hboundary Hopening Hsender) as (Hpast & _). apply Hpast. cbn. lia.
Defined.

(** A Starting messenger without a sender goes to Error when the sender
    cannot be created, although the sender reported nothing: its mirrored
    state is Idle and there is no sender object. *)
Lemma starting_tick_error_on_creation_failure :
  state (instance starting_world) = AMQP_MESSENGER_STATE_STARTING
  /\ ~ starting_error_exactly_on_sender_report 1001 scenario_handle tick_link_create_fails
         starting_world.
Proof.
  split; [reflexivity|].
  unfold starting_error_exactly_on_sender_report. cbn zeta. intros [Honly _].
  assert (Herr : state (instance (exec (amqp_messenger_do_work scenario_handle
                                          tick_link_create_fails) starting_world))
                 = AMQP_MESSENGER_STATE_ERROR) by (vm_compute; reflexivity).
  destruct (Honly Herr) as [H | [H | [(_ & H) | (H & _)]]].
  - discriminate H.
  - discriminate H.
  - apply H. reflexivity.
  - discriminate H.
Qed.

(** ** Options *)

(** How [amqp_messenger_set_option] answers for a non-null handle, name and
    value: the time-out option is handed to the queue and the result is 0
    exactly when the queue setter returns a non-zero value; every other name
    fails without a call. *)
Lemma set_option_result (h value setter : Z) (name : string) (w : World) :
  h <> NULL ->
  let result := eval (amqp_messenger_set_option h (Some name) (Some value) setter) w in
  let w' := exec (amqp_messenger_set_option h (Some name) (Some value) setter) w in
  (name = MESSENGER_OPTION_EVENT_SEND_TIMEOUT_SECS ->
     (result = RESULT_OK <-> setter <> 0)
     /\ trace w' = (trace w ++ [call_message_queue_set_max_message_enqueued_time_secs
                                  (send_queue (instance w)) value])%list)
  /\ (name <> MESSENGER_OPTION_EVENT_SEND_TIMEOUT_SECS -> result <> RESULT_OK /\ w' = w).
Proof.
  intros Hh. cbn zeta. unfold amqp_messenger_set_option. rewrite (is_null_false h Hh).
  rewrite eval_bind, exec_bind.
  change (eval get w) with (instance w). change (exec get w) with w.
  destruct (String.eqb MESSENGER_OPTION_EVENT_SEND_TIMEOUT_SECS name) eqn:En.
  - apply String.eqb_eq in En. split; [|congruence]. intros _.
    rewrite eval_bind, exec_bind.
    destruct (setter =? 0) eqn:E.
    + apply Z.eqb_eq in E. split; [|reflexivity].
      rewrite eval_ret. split; [discriminate | congruence].
    + apply Z.eqb_neq in E. split; [|reflexivity].
      rewrite eval_ret. split; [auto | reflexivity].
  - apply String.eqb_neq in En. split; [congruence|]. intros _.
    rewrite eval_ret, exec_ret. split; [discriminate | reflexivity].
Qed.

(** C5 -- Setting [amqp_event_send_timeout_secs] to 30 on the scenario
    messenger, the queue setter succeeding with 0: the value reaches the
    queue, yet the call reports a failure; and it reports success for a
    setter that fails with 1. *)
Theorem set_option_reports_failure_on_setter_success :
  eval (amqp_messenger_set_option scenario_handle
          (Some "amqp_event_send_timeout_secs") (Some 30) 0) scenario_world
  = __FAILURE__
  /\ trace (exec (amqp_messenger_set_option scenario_handle
                    (Some "amqp_event_send_timeout_secs") (Some 30) 0) scenario_world)
     = [call_message_queue_set_max_message_enqueued_time_secs 8192 30]
  /\ eval (amqp_messenger_set_option scenario_handle
             (Some "amqp_event_send_timeout_secs") (Some 30) 1) scenario_world
     = RESULT_OK
  /\ ~ set_option_succeeds_when_setter_returns_zero scenario_handle 30 0 scenario_world.
Proof.
  repeat split.
  unfold set_option_succeeds_when_setter_returns_zero. intros [_ H].
  specialize (H eq_refl). discriminate H.
Qed.

(** ** Send status *)


(** The expression the twin messenger evaluates once the AMQP messenger has
    answered does not read that answer: were there a twin messenger, a
    successful [twin_messenger_get_send_status] would write BUSY. *)
Lemma twin_send_status_is_busy
  (twin : option TWIN_MESSENGER_INSTANCE) (p : Z) (q : Z * bool) (w : World)
  (status : TWIN_MESSENGER_SEND_STATUS) :
  eval (twin_messenger_get_send_status twin p q) w = (RESULT_OK, Some status) ->
  status = TWIN_MESSENGER_SEND_STATUS_BUSY.
Proof.
  unfold twin_messenger_get_send_status. destruct twin as [tw|]; [|discriminate].
  destruct (is_null p); [discriminate|].
  rewrite eval_bind.
  destruct (eval (amqp_messenger_get_send_status (Twin.amqp_msgr tw)
                    address_of_amqp_send_status q) w) as [rc st].
  destruct (rc =? 0); cbn; [|discriminate].
  intros H. injection H as <-. reflexivity.
Qed.




(** ** Dispositions *)

(** C7 -- The disposition token built from a verdict: nil for None, the
    accepted outcome for Accepted, the released outcome for Released, the
    rejected outcome with condition and description "Rejected by application"
    for Rejected, nil for any other value. *)
Theorem disposition_token_of_verdict :
  forall (uamqp : Messaging),
    create_uamqp_disposition_result_from AMQP_MESSENGER_DISPOSITION_RESULT_NONE = NULL
    /\ create_uamqp_disposition_result_from AMQP_MESSENGER_DISPOSITION_RESULT_ACCEPTED
       = messaging_delivery_accepted
    /\ create_uamqp_disposition_result_from AMQP_MESSENGER_DISPOSITION_RESULT_RELEASED
       = messaging_delivery_released
    /\ create_uamqp_disposition_result_from AMQP_MESSENGER_DISPOSITION_RESULT_REJECTED
       = messaging_delivery_rejected "Rejected by application" "Rejected by application"
    /\ (forall verdict : AMQP_MESSENGER_DISPOSITION_RESULT,
          verdict <> AMQP_MESSENGER_DISPOSITION_RESULT_NONE ->
          verdict <> AMQP_MESSENGER_DISPOSITION_RESULT_ACCEPTED ->
          verdict <> AMQP_MESSENGER_DISPOSITION_RESULT_REJECTED ->
          verdict <> AMQP_MESSENGER_DISPOSITION_RESULT_RELEASED ->
          create_uamqp_disposition_result_from verdict = NULL).
Proof.
  intros uamqp. repeat (split; [reflexivity|]).
  intros v H0 H1 H2 H3. unfold create_uamqp_disposition_result_from.
  apply Z.eqb_neq in H0, H1, H2, H3. rewrite H0, H1, H2, H3. reflexivity.
Qed.

Lemma disposition_token_of_verdict_witness :
  @create_uamqp_disposition_result_from scenario_messaging 7 = NULL
  /\ @create_uamqp_disposition_result_from scenario_messaging (-1) = NULL.
Proof.
  destruct (disposition_token_of_verdict scenario_messaging) as (_ & _ & _ & _ & Hother).
  split; apply Hother; discriminate.
Defined.

(** C10 -- When the disposition info cannot be built (the allocation fails,
    the receiver does not report the delivery identifier or the link name, or
    the link name cannot be copied), the receive callback answers the peer
    with the released outcome and makes no call at all, so the application
    does not see the message. *)
Theorem received_message_released_without_disposition_info :
  forall (uamqp : Messaging) (o : DISPOSITION_INFO_OUTCOME)
         (application : AMQP_MESSENGER_MESSAGE_DISPOSITION_INFO -> AMQP_MESSENGER_DISPOSITION_RESULT)
         (msg : Z) (w : World),
    disposition_info_malloc_ok o = false
    \/ fst (messagereceiver_get_received_message_id o) <> RESULT_OK
    \/ fst (messagereceiver_get_link_name o) <> RESULT_OK
    \/ mallocAndStrcpy_s o <> RESULT_OK ->
    create_message_disposition_info o = None
    /\ eval (on_message_received_internal_callback o application msg) w
       = messaging_delivery_released
    /\ exec (on_message_received_internal_callback o application msg) w = w.
Proof.
  intros uamqp o application msg w Hfail.
  assert (Hnone : create_message_disposition_info o = None).
  { unfold create_message_disposition_info.
    destruct (disposition_info_malloc_ok o); cbn; [|reflexivity].
    destruct (messagereceiver_get_received_message_id o) as [id_result delivery].
    destruct (id_result =? RESULT_OK) eqn:E1; cbn; [|reflexivity].
    destruct (messagereceiver_get_link_name o) as [name_result link_name].
    destruct (name_result =? RESULT_OK) eqn:E2; cbn; [|reflexivity].
    destruct (mallocAndStrcpy_s o =? RESULT_OK) eqn:E3; cbn; [|reflexivity].
    apply Z.eqb_eq in E1, E2, E3. cbn in Hfail.
    destruct Hfail as [H | [H | [H | H]]]; congruence. }
  split; [exact Hnone|].
  unfold on_message_received_internal_callback.
  rewrite eval_bind, exec_bind, Hnone. split; reflexivity.
Qed.

Lemma received_message_released_without_disposition_info_witness :
  fst (messagereceiver_get_received_message_id delivery_id_unavailable) <> RESULT_OK
  /\ eval (@on_message_received_internal_callback scenario_messaging
             delivery_id_unavailable (fun _ => AMQP_MESSENGER_DISPOSITION_RESULT_ACCEPTED)
             24576) (started_world 0)
     = 32772
  /\ trace (exec (@on_message_received_internal_callback scenario_messaging
                    delivery_id_unavailable (fun _ => AMQP_MESSENGER_DISPOSITION_RESULT_ACCEPTED)
                    24576) (started_world 0))
     = [].
Proof.
  assert (Hid : fst (messagereceiver_get_received_message_id delivery_id_unavailable)
                <> RESULT_OK) by (cbn; discriminate).
  split; [exact Hid|].
  destruct (received_message_released_without_disposition_info scenario_messaging
              delivery_id_unavailable (fun _ => AMQP_MESSENGER_DISPOSITION_RESULT_ACCEPTED)
              24576 (started_world 0) (or_intror (or_introl Hid))) as (_ & Hanswer & Hsame).
  split; [exact Hanswer|]. rewrite Hsame. reflexivity.
Defined.

(** ** The Stopped state has no links *)

Lemma stopped_without_links_same (i j : AMQP_MESSENGER_INSTANCE) :
  same_state_and_links i j -> stopped_without_links i -> stopped_without_links j.
Proof.
  unfold same_state_and_links, stopped_without_links, links_absent.
  intros (Hs & H1 & H2 & H3 & H4) Hi Hj. rewrite Hs in Hj.
  destruct (Hi Hj) as (a & b & c & d). repeat split; congruence.
Qed.

Lemma do_work_stopped (h : Z) (t : TICK) (w : World) :
  state (instance w) = AMQP_MESSENGER_STATE_STOPPED \/
  state (instance w) = AMQP_MESSENGER_STATE_STOPPING \/
  state (instance w) = AMQP_MESSENGER_STATE_ERROR ->
  exec (amqp_messenger_do_work h t) w = w.
Proof.
  intros Hs. unfold amqp_messenger_do_work.
  destruct (is_null h); [reflexivity|].
  assert (H1 : exec (process_state_changes (is_timeout_reached t)) w = w).
  { unfold process_state_changes. rewrite exec_bind.
    change (eval get w) with (instance w). change (exec get w) with w.
    destruct Hs as [Hs | [Hs | Hs]]; rewrite Hs; reflexivity. }
  rewrite exec_bind, H1, exec_bind.
  change (eval get w) with (instance w). change (exec get w) with w.
  destruct Hs as [Hs | [Hs | Hs]]; rewrite Hs; reflexivity.
Qed.

(** A tick never puts the messenger in the Stopped state. *)
Lemma do_work_never_stops (h : Z) (t : TICK) (w : World) :
  state (instance w) <> AMQP_MESSENGER_STATE_STOPPED ->
  state (instance (exec (amqp_messenger_do_work h t) w)) <> AMQP_MESSENGER_STATE_STOPPED.
Proof.
  intros Hs.
  destruct (Z.eq_dec h NULL) as [Hh | Hh].
  { unfold amqp_messenger_do_work. rewrite Hh. exact Hs. }
  destruct (state (instance w)) eqn:Est; try congruence.
  - (* Starting *)
    pose proof (process_state_changes_starting (is_timeout_reached t) w Est) as Hex.
    cbn zeta in Hex.
    assert (Hcases :
      state (instance (exec (process_state_changes (is_timeout_reached t)) w))
        = AMQP_MESSENGER_STATE_ERROR
      \/ state (instance (exec (process_state_changes (is_timeout_reached t)) w))
         = AMQP_MESSENGER_STATE_STARTED
      \/ exec (process_state_changes (is_timeout_reached t)) w = w).
    { destruct (message_sender_current_state (instance w)).
      - destruct (is_null (message_sender (instance w))); [auto|]. rewrite Hex. auto.
      - match type of Hex with (if ?b then _ else _) => destruct b end;
          [rewrite Hex|]; auto.
      - rewrite Hex. auto.
      - rewrite Hex. auto.
      - rewrite Hex. auto. }
    destruct Hcases as [He | [Hst | Hw1]].
    + rewrite (do_work_started_to_error h t w Hh He), He. discriminate.
    + destruct (do_work_started_tail h t w Hh Hst) as (n & _ & _ & Hfin).
      cbn zeta in Hfin. rewrite Hfin.
      destruct (max_send_error_count (instance w) <=? n); discriminate.
    + rewrite (do_work_starting_tail h t w Hh Est Hw1).
      match goal with |- (if ?b then _ else _) <> _ => destruct b end; discriminate.
  - (* Started *)
    destruct (process_state_changes_started (is_timeout_reached t) w Est) as [Hst | He].
    + destruct (do_work_started_tail h t w Hh Hst) as (n & _ & _ & Hfin).
      cbn zeta in Hfin. rewrite Hfin.
      destruct (max_send_error_count (instance w) <=? n); discriminate.
    + rewrite (do_work_started_to_error h t w Hh He), He. discriminate.
  - rewrite do_work_stopped; [rewrite Est; discriminate | rewrite Est; auto].
  - rewrite do_work_stopped; [rewrite Est; discriminate | rewrite Est; auto].
Qed.

(** Calls that leave the instance as it is. *)
Lemma amqp_messenger_send_async_instance
  (h msg callback context : Z) (o : SEND_ASYNC_OUTCOME) (w : World) :
  instance (exec (amqp_messenger_send_async h msg callback context o) w) = instance w.
Proof.
  unfold amqp_messenger_send_async.
  destruct (is_null h || is_null msg || is_null callback); [reflexivity|].
  destruct (is_null (message_clone o)); [reflexivity|].
  destruct (negb (send_context_malloc_ok o)); [reflexivity|].
  rewrite exec_bind. change (eval get w) with (instance w). change (exec get w) with w.
  rewrite exec_bind.
  destruct (negb (message_queue_add o =? RESULT_OK)); reflexivity.
Qed.

Lemma amqp_messenger_get_send_status_world (h p : Z) (q : Z * bool) (w : World) :
  exec (amqp_messenger_get_send_status h p q) w = w.
Proof.
  unfold amqp_messenger_get_send_status. destruct q as [queue_result is_empty].
  destruct (is_null h || is_null p); [reflexivity|].
  destruct (negb (queue_result =? 0)); reflexivity.
Qed.

Lemma amqp_messenger_set_option_instance
  (h : Z) (name : option string) (value : option Z) (setter : Z) (w : World) :
  instance (exec (amqp_messenger_set_option h name value setter) w) = instance w.
Proof.
  unfold amqp_messenger_set_option.
  destruct name as [name|]; [|reflexivity]. destruct value as [value|]; [|reflexivity].
  destruct (is_null h); [reflexivity|].
  rewrite exec_bind. change (eval get w) with (instance w). change (exec get w) with w.
  destruct (String.eqb MESSENGER_OPTION_EVENT_SEND_TIMEOUT_SECS name); [|reflexivity].
  rewrite exec_bind. destruct (setter =? 0); reflexivity.
Qed.

Lemma amqp_messenger_send_message_disposition_instance `{Messaging}
  (h : Z) (info : option AMQP_MESSENGER_MESSAGE_DISPOSITION_INFO)
  (verdict : AMQP_MESSENGER_DISPOSITION_RESULT) (rc : Z) (w : World) :
  instance (exec (amqp_messenger_send_message_disposition h info verdict rc) w) = instance w.
Proof.
  unfold amqp_messenger_send_message_disposition.
  destruct info as [info|]; [|reflexivity].
  destruct (is_null h); [reflexivity|].
  destruct (source info) as [link_name|]; [|reflexivity].
  rewrite exec_bind. change (eval get w) with (instance w). change (exec get w) with w.
  destruct (is_null (message_receiver (instance w))); [reflexivity|].
  cbn zeta.
  destruct (is_null (create_uamqp_disposition_result_from verdict)); [reflexivity|].
  rewrite !exec_bind. destruct (negb (rc =? RESULT_OK)); reflexivity.
Qed.

Lemma on_message_received_internal_callback_instance `{Messaging}
  (o : DISPOSITION_INFO_OUTCOME)
  (application : AMQP_MESSENGER_MESSAGE_DISPOSITION_INFO -> AMQP_MESSENGER_DISPOSITION_RESULT)
  (msg : Z) (w : World) :
  instance (exec (on_message_received_internal_callback o application msg) w) = instance w.
Proof.
  unfold on_message_received_internal_callback.
  rewrite exec_bind. change (eval get w) with (instance w). change (exec get w) with w.
  destruct (create_message_disposition_info o); reflexivity.
Qed.

Lemma run_call_keeps_stopped_without_links `{Messaging} (c : API_CALL) (w : World) :
  stopped_without_links (instance w) ->
  stopped_without_links (instance (exec (run_call c) w)).
Proof.
  intros Hinv.
  destruct c; cbn [run_call].
  - (* start *)
    rewrite exec_bind, exec_skip. unfold amqp_messenger_start.
    destruct (is_null h); [exact Hinv|]. destruct (is_null session); [exact Hinv|].
    rewrite exec_bind. change (eval get w) with (instance w). change (exec get w) with w.
    destruct (AMQP_MESSENGER_STATE_eqb (state (instance w)) AMQP_MESSENGER_STATE_STOPPED) eqn:E;
      cbn [negb]; [|exact Hinv].
    rewrite !exec_bind, exec_ret, update_messenger_state_instance.
    intros Hs. discriminate Hs.
  - (* stop *)
    rewrite exec_bind, exec_skip.
    destruct (Z.eq_dec h NULL) as [Hh | Hh].
    { unfold amqp_messenger_stop. rewrite Hh. exact Hinv. }
    destruct (amqp_messenger_stop_run h move_all_back_to_pending w Hh) as [Hstopped Hrun].
    destruct (AMQP_MESSENGER_STATE_eqb (state (instance w)) AMQP_MESSENGER_STATE_STOPPED) eqn:E.
    + apply AMQP_MESSENGER_STATE_eqb_eq in E. destruct (Hstopped E) as [_ Hsame].
      rewrite Hsame. exact Hinv.
    + apply AMQP_MESSENGER_STATE_eqb_neq in E. destruct (Hrun E) as (Habs & _).
      intros _. exact Habs.
  - (* do_work *)
    destruct (AMQP_MESSENGER_STATE_eqb (state (instance w)) AMQP_MESSENGER_STATE_STOPPED) eqn:E.
    + apply AMQP_MESSENGER_STATE_eqb_eq in E. rewrite do_work_stopped; auto.
    + apply AMQP_MESSENGER_STATE_eqb_neq in E. intros Hs.
      exfalso. exact (do_work_never_stops h t w E Hs).
  - (* subscribe *)
    apply (stopped_without_links_same (instance w)); [|exact Hinv].
    destruct w as [i tr]. unfold amqp_messenger_subscribe_for_messages, same_state_and_links.
    run_cmd. break_all; repeat split; reflexivity.
  - (* unsubscribe *)
    apply (stopped_without_links_same (instance w)); [|exact Hinv].
    destruct w as [i tr]. unfold amqp_messenger_unsubscribe_for_messages, same_state_and_links.
    run_cmd. break_all; repeat split; reflexivity.
  - (* send_async *)
    rewrite exec_bind, exec_skip, amqp_messenger_send_async_instance. exact Hinv.
  - (* get_send_status *)
    rewrite exec_bind, exec_skip, amqp_messenger_get_send_status_world. exact Hinv.
  - (* set_option *)
    rewrite exec_bind, exec_skip, amqp_messenger_set_option_instance. exact Hinv.
  - (* send_message_disposition *)
    rewrite exec_bind, exec_skip, amqp_messenger_send_message_disposition_instance.
    exact Hinv.
  - (* the sender reports a state *)
    apply (stopped_without_links_same (instance w)); [|exact Hinv].
    destruct w as [i tr].
    unfold on_message_sender_state_changed_callback, same_state_and_links.
    run_cmd. break_all; repeat split; reflexivity.
  - (* the receiver reports a state *)
    apply (stopped_without_links_same (instance w)); [|exact Hinv].
    destruct w as [i tr].
    unfold on_message_receiver_state_changed_callback, same_state_and_links.
    run_cmd. break_all; repeat split; reflexivity.
  - (* a message arrives *)
    rewrite exec_bind, exec_skip, on_message_received_internal_callback_instance.
    exact Hinv.
  - (* a send completes *)
    apply (stopped_without_links_same (instance w)); [|exact Hinv].
    destruct (on_send_complete_callback_instance context send_result on_token w) as [n Hn].
    rewrite Hn. unfold same_state_and_links. repeat split.
  - (* the queue calls back *)
    apply (stopped_without_links_same (instance w)); [|exact Hinv].
    destruct (run_queue_callback_instance c w) as [n Hn]. rewrite Hn.
    unfold same_state_and_links. repeat split.
Qed.

Lemma amqp_messenger_create_stopped (config : option AMQP_MESSENGER_CONFIG)
  (o : CREATE_OUTCOME) (i : AMQP_MESSENGER_INSTANCE) :
  amqp_messenger_create config o = Some i ->
  state i = AMQP_MESSENGER_STATE_STOPPED /\ links_absent i
  /\ send_error_count i = 0 /\ max_send_error_count i = DEFAULT_MAX_SEND_ERROR_COUNT.
Proof.
  unfold amqp_messenger_create. intros Hc.
  repeat match type of Hc with
         | match ?x with _ => _ end = _ => destruct x; try discriminate Hc
         | (if ?b then _ else _) = _ => destruct b; try discriminate Hc
         end.
  injection Hc as <-. unfold links_absent. cbn. repeat split.
Qed.

(** C8 -- In every world reachable from a created messenger by calls of the
    interface and callbacks of the libraries, a Stopped messenger has neither
    sender link, message sender, receiver link nor message receiver. *)
Theorem stopped_has_no_links :
  forall (uamqp : Messaging) (w : World),
    reachable w ->
    state (instance w) = AMQP_MESSENGER_STATE_STOPPED ->
    sender_link (instance w) = NULL
    /\ message_sender (instance w) = NULL
    /\ receiver_link (instance w) = NULL
    /\ message_receiver (instance w) = NULL.
Proof.
  intros uamqp w Hreach.
  change (stopped_without_links (instance w)).
  induction Hreach as [config o i Hcreate | w c Hreach IH].
  - intros _. apply (amqp_messenger_create_stopped config o i Hcreate).
  - apply run_call_keeps_stopped_without_links. exact IH.
Qed.

Lemma reachable_run_calls `{Messaging} (cs : list API_CALL) (w : World) :
  reachable w -> reachable (exec (run_calls cs) w).
Proof.
  revert w. induction cs as [|c cs IH]; intros w Hw.
  - exact Hw.
  - cbn [run_calls]. rewrite exec_bind. apply IH. apply reachable_step. exact Hw.
Qed.

Lemma stopped_has_no_links_witness :
  @reachable scenario_messaging (exec (@run_calls scenario_messaging scenario_calls) scenario_world)
  /\ state (instance (exec (@run_calls scenario_messaging scenario_calls) scenario_world))
     = AMQP_MESSENGER_STATE_STOPPED
  /\ links_absent (instance (exec (@run_calls scenario_messaging scenario_calls) scenario_world))
  /\ message_receiver
       (instance (exec (@run_calls scenario_messaging (removelast scenario_calls)) scenario_world))
     = 16396.
Proof.
  assert (Hreach : @reachable scenario_messaging
                     (exec (@run_calls scenario_messaging scenario_calls) scenario_world)).
  { apply reachable_run_calls.
    apply (@reachable_created scenario_messaging (Some scenario_config) scenario_create_outcome).
    reflexivity. }
  assert (Hstopped : state (instance (exec (@run_calls scenario_messaging scenario_calls)
                                        scenario_world))
                     = AMQP_MESSENGER_STATE_STOPPED) by (vm_compute; reflexivity).
  split; [exact Hreach|]. split; [exact Hstopped|]. split.
  - exact (stopped_has_no_links scenario_messaging _ Hreach Hstopped).
  - vm_compute. reflexivity.
Defined.

(** ** Every accepted send is completed once *)

































(** Lists *)


Lemma flat_map_filter {A B} (p : A -> bool) (f : A -> B) (l : list A) :
  flat_map (fun x => if p x then [f x] else []) l = map f (filter p l).
Proof.
  induction l as [|x l IH]; cbn; [reflexivity|].
  destruct (p x); cbn; rewrite IH; reflexivity.
Qed.




(** What the queue's calls deliver *)











(** ** What a step adds to the trace *)

Section EmitsOnly.
Variable Q : Event -> Prop.

Lemma emits_only_ret {A} (a : A) : emits_only Q (ret a).
Proof. intros w. exists []. rewrite app_nil_r. split; [reflexivity | constructor]. Qed.

Lemma emits_only_skip : emits_only Q skip.
Proof. apply emits_only_ret. Qed.

Lemma emits_only_get : emits_only Q get.
Proof. intros w. exists []. rewrite app_nil_r. split; [reflexivity | constructor]. Qed.

Lemma emits_only_modify (f : AMQP_MESSENGER_INSTANCE -> AMQP_MESSENGER_INSTANCE) :
  emits_only Q (modify f).
Proof. intros w. exists []. rewrite app_nil_r. split; [reflexivity | constructor]. Qed.

Lemma emits_only_emit (e : Event) : Q e -> emits_only Q (emit e).
Proof. intros He w. exists [e]. split; [reflexivity | constructor; [exact He | constructor]]. Qed.

Lemma emits_only_bind {A C} (c : Cmd A) (k : A -> Cmd C) :
  emits_only Q c -> (forall a, emits_only Q (k a)) -> emits_only Q (bind c k).
Proof.
  intros Hc Hk w. rewrite exec_bind.
  destruct (Hc w) as (l1 & E1 & F1).
  destruct (Hk (eval c w) (exec c w)) as (l2 & E2 & F2).
  exists (l1 ++ l2)%list. rewrite E2, E1, app_assoc. split; [reflexivity|].
  apply Forall_app. auto.
Qed.

Lemma emits_only_when (b : bool) (c : Cmd unit) : emits_only Q c -> emits_only Q (when b c).
Proof. intros Hc. destruct b; [exact Hc | apply emits_only_skip]. Qed.

End EmitsOnly.

Ltac emits_only_step :=
  first
    [ apply emits_only_ret
    | apply emits_only_skip
    | apply emits_only_get
    | apply emits_only_modify
    | apply emits_only_emit; exact I
    | apply emits_only_when
    | apply emits_only_bind; [|intros ?]
    | match goal with
      | |- emits_only _ (if ?b then _ else _) => destruct b
      | |- emits_only _ (match ?x with _ => _ end) => destruct x
      end ].

Ltac emits_only_all := repeat emits_only_step.

Ltac unfold_messenger :=
  unfold amqp_messenger_destroy, amqp_messenger_start, amqp_messenger_stop,
    amqp_messenger_do_work,
    amqp_messenger_subscribe_for_messages, amqp_messenger_unsubscribe_for_messages,
    amqp_messenger_send_async, amqp_messenger_get_send_status, amqp_messenger_set_option,
    on_message_sender_state_changed_callback, on_message_receiver_state_changed_callback,
    on_send_complete_callback, run_queue_callback,
    process_state_changes, create_message_sender, create_message_receiver,
    destroy_message_sender, destroy_message_receiver, update_messenger_state,
    on_process_message_callback, run_token, run_completion,
    on_message_processing_completed_callback.

Lemma new_events_app (w w' : World) (added : list Event) :
  trace w' = (trace w ++ added)%list -> new_events w w' = added.
Proof.
  intros E. unfold new_events. rewrite E, skipn_app, skipn_all, Nat.sub_diag. reflexivity.
Qed.



Lemma run_queue_callback_not_do_work (c : QUEUE_CALLBACK) :
  emits_only not_message_queue_do_work (run_queue_callback c).
Proof. destruct c; unfold_messenger; emits_only_all. Qed.

















(** A send that uAMQP refuses on the spot is completed inside the
    presentation: the user callback is invoked with ErrorFailSending, the
    completion destroys the message, and [on_process_message_callback]
    destroys it once more when the token returns. *)
Lemma refused_send_destroys_message_twice (it : QUEUE_ITEM) (rc : Z) (w : World) :
  send_queue (instance w) <> NULL ->
  item_message it <> NULL ->
  SendContext.on_send_complete_callback (item_context it) <> NULL ->
  SendContext.is_destroyed (item_context it) = false ->
  rc <> 0 ->
  new_events w (exec (run_queue_callback (present_item (fun _ => rc) it)) w)
  = [ call_messagesender_send (message_sender (instance w)) (item_message it);
      call_process_message_completed (send_queue (instance w)) (item_message it)
        MESSAGE_QUEUE_ERROR;
      send_complete_callback (SendContext.on_send_complete_callback (item_context it))
        AMQP_MESSENGER_SEND_RESULT_ERROR_FAIL_SENDING
        (SendContext.user_context (item_context it));
      call_message_destroy (item_message it);
      call_message_destroy (item_message it) ].
Proof.
  intros Hq Hmsg Hcb Hd Hrc. apply new_events_app.
  unfold present_item, run_queue_callback, on_process_message_callback, run_token,
    run_completion, item_completion, on_message_processing_completed_callback, with_token.
  cbn [completed_message completed_result completed_reason completed_context
       SendContext.on_send_complete_callback SendContext.user_context
       SendContext.is_destroyed].
  unfold exec, skip, bind, get. cbn [fst snd].
  rewrite (is_null_false _ Hq), (is_null_false _ Hmsg), (is_null_false _ Hcb), Hd.
  apply Z.eqb_neq in Hrc. rewrite Hrc.
  cbn. rewrite <- !app_assoc. reflexivity.
Qed.






